(** * YOLO11 deployment API (main.py): a shallow embedding of the request handlers

    The handlers of [main.py] are embedded over an explicit copy of the
    module-level state ([default_model_name], the three latency counters, the
    [request_timestamps] list and the three Prometheus metrics).  Python floats
    are IEEE binary64 values ([PrimFloat]); Python ints are [Z]; an exception
    is a value of [exn] and leaves every mutation that preceded it in place.
    The collaborators that are not code of the repository (OpenCV, the
    ultralytics models, pandas' sort, the Prometheus histogram, the builtin
    [round], the clock) are fields of the class [Externals] or arguments of
    the handlers. *)

From Stdlib Require Import ZArith List String Bool Lia Floats.
From Stdlib Require Import DecimalString Sorted.
Import ListNotations.

Set Implicit Arguments.
Local Open Scope Z_scope.

(** ** Python values *)

Module Py.

(** The exceptions the handlers can raise.  [ExternalError] stands for any
    exception raised inside a collaborator (cv2.error, a torch error, ...). *)
Inductive exn : Type :=
| IndexError
| KeyError (key : string)
| ZeroDivisionError
| ValueError
| OverflowError
| ExternalError (what : string).

(** The outcome of evaluating an expression: a value or a raised exception. *)
Inductive result (A : Type) : Type :=
| Ok (a : A)
| Raise (e : exn).
Arguments Ok {A} a.
Arguments Raise {A} e.

(** [lst[i]] for a non-negative constant index. *)
Definition list_index {A} (lst : list A) (i : nat) : result A :=
  match nth_error lst i with
  | Some a => Ok a
  | None => Raise IndexError
  end.

(** A dict with string keys, in insertion order. *)
Definition dict (V : Type) : Type := list (string * V).

Fixpoint dict_get {V} (d : dict V) (k : string) : option V :=
  match d with
  | [] => None
  | (k', v) :: d' => if String.eqb k k' then Some v else dict_get d' k
  end.

(** [k in d] *)
Definition dict_mem {V} (d : dict V) (k : string) : bool :=
  match dict_get d k with Some _ => true | None => false end.

(** [list(d.keys())] *)
Definition dict_keys {V} (d : dict V) : list string := map fst d.

(** [d[k]], which raises KeyError on an absent key. *)
Definition dict_index {V} (d : dict V) (k : string) : result V :=
  match dict_get d k with
  | Some v => Ok v
  | None => Raise (KeyError k)
  end.

(** The float nearest to an int (round to nearest, ties to even), as the
    mixed operations [float / int], [float * int] and [float - int] convert
    their int operand.  (CPython raises OverflowError where this gives an
    infinity, for ints of magnitude 2^1024 and more.) *)
Definition float_of_int (z : Z) : float :=
  SF2Prim (binary_normalize prec emax z 0 false).

(** [int(x)] for a float: truncation toward zero. *)
Definition int_of_float (x : float) : result Z :=
  match Prim2SF x with
  | S754_zero _ => Ok 0%Z
  | S754_infinity _ => Raise OverflowError
  | S754_nan => Raise ValueError
  | S754_finite s m e =>
      let a := Z.shiftl (Z.pos m) e in
      Ok (if s then (- a)%Z else a)
  end.

(** [x / n] for a float [x] and an int [n]. *)
Definition truediv_int (x : float) (n : Z) : result float :=
  if (n =? 0)%Z then Raise ZeroDivisionError
  else Ok (x / float_of_int n)%float.

(** [str(n)] for an int, as an f-string formats it. *)
Definition str_of_int (n : Z) : string := NilZero.string_of_int (Z.to_int n).

(** Truthiness of an [Optional[str]]: [None] and the empty string are false. *)
Definition truthy (s : option string) : bool :=
  match s with
  | None => false
  | Some EmptyString => false
  | Some (String _ _) => true
  end.

End Py.
Import Py.

(** ** Data exchanged with the collaborators *)

(** One detection as [predict] reads it off a [Boxes] element:
    [box.xyxy[0].tolist()], [float(box.conf[0])] and [int(box.cls[0])]. *)
Record Box : Type := {
  xyxy : float * float * float * float;
  conf : float;
  cls : Z
}.

(** One element of the list that [YOLO.predict] returns (one per image). *)
Record Results : Type := { boxes : list Box }.

(** One element of the [predictions] list of the /predict response. *)
Record Prediction : Type := {
  label : string;
  confidence : float;
  bbox : list float
}.

(** One row of the DataFrame built by [transform_predict_to_df]. *)
Record Row : Type := {
  xmin : float;
  ymin : float;
  xmax : float;
  ymax : float;
  row_confidence : float;
  row_class : Z;
  row_name : string
}.

(** One call [annotator.box_label(bbox, text, color=...)]. *)
Record BoxLabel : Type := {
  bl_bbox : list float;
  bl_text : string;
  bl_color : Z * Z * Z
}.

(** An [Annotator]: the array it was created on and the [box_label] calls made
    on it so far, oldest first.  What the calls paint is the library's matter;
    the picture is a function of this record. *)
Record Annotator (ndarray : Type) : Type := {
  im : ndarray;
  drawn : list BoxLabel
}.

(** The collaborators of [main.py]. *)
Class Externals : Type := {
  (** a loaded ultralytics model, and the two loaded at start-up *)
  YOLO : Type;
  model_0 : YOLO;
  model_1 : YOLO;
  (** a decoded image: what [cv2.imdecode] returns *)
  ndarray : Type;
  (** [cv2.imdecode(np.frombuffer(b, np.uint8), cv2.IMREAD_COLOR)] *)
  cv2_imdecode : list Byte.byte -> result ndarray;
  (** [model.predict(img, conf=..., imgsz=...)] *)
  yolo_predict : YOLO -> ndarray -> float -> Z -> result (list Results);
  (** the dict [model.names] (and [model.model.names]) *)
  yolo_names : YOLO -> Z -> option string;
  (** the builtin [round(x, ndigits)] on floats *)
  py_round : float -> Z -> float;
  (** the state of a Prometheus [Histogram] and its [observe] *)
  Histogram : Type;
  hist_init : Histogram;
  hist_observe : float -> Histogram -> Histogram;
  (** [DataFrame.sort_values(by=['xmin'], ascending=True)] *)
  sort_values_xmin : list Row -> list Row;
  (** [ultralytics.utils.plotting.colors(i, bgr)] *)
  colors : Z -> bool -> Z * Z * Z;
  (** [Image.fromarray(annotator.result())] saved as JPEG at a quality *)
  save_jpeg : Annotator ndarray -> Z -> list Byte.byte
}.

(** ** Module state and the handler monad *)

Section Handlers.

Context {E : Externals}.

(** The module-level variables that the handlers read and write. *)
Record State : Type := {
  default_model_name : string;
  request_count : Z;
  total_latency : float;
  max_latency : float;
  request_timestamps : list float;
  (** Gauge 'response_time': the value last set *)
  time_gauge : float;
  (** Counter 'request_number': the number of [inc()] calls *)
  request_number : Z;
  (** Histogram 'confidence_distribution' *)
  confidence_distribution : Histogram
}.

(** [models]: filled once at import time and never written again. *)
Definition models : dict YOLO :=
  [("model_0"%string, model_0); ("model_1"%string, model_1)].

(** The state after the module has been imported. *)
Definition initial_state : State := {|
  default_model_name := "model_0";
  request_count := 0;
  total_latency := 0%float;
  max_latency := 0%float;
  request_timestamps := [];
  time_gauge := 0%float;
  request_number := 0;
  confidence_distribution := hist_init
|}.

Definition set_default_model_name (v : string) (st : State) : State :=
  {| default_model_name := v;
     request_count := request_count st;
     total_latency := total_latency st;
     max_latency := max_latency st;
     request_timestamps := request_timestamps st;
     time_gauge := time_gauge st;
     request_number := request_number st;
     confidence_distribution := confidence_distribution st |}.

Definition set_request_count (v : Z) (st : State) : State :=
  {| default_model_name := default_model_name st;
     request_count := v;
     total_latency := total_latency st;
     max_latency := max_latency st;
     request_timestamps := request_timestamps st;
     time_gauge := time_gauge st;
     request_number := request_number st;
     confidence_distribution := confidence_distribution st |}.

Definition set_total_latency (v : float) (st : State) : State :=
  {| default_model_name := default_model_name st;
     request_count := request_count st;
     total_latency := v;
     max_latency := max_latency st;
     request_timestamps := request_timestamps st;
     time_gauge := time_gauge st;
     request_number := request_number st;
     confidence_distribution := confidence_distribution st |}.

Definition set_max_latency (v : float) (st : State) : State :=
  {| default_model_name := default_model_name st;
     request_count := request_count st;
     total_latency := total_latency st;
     max_latency := v;
     request_timestamps := request_timestamps st;
     time_gauge := time_gauge st;
     request_number := request_number st;
     confidence_distribution := confidence_distribution st |}.

Definition set_request_timestamps (v : list float) (st : State) : State :=
  {| default_model_name := default_model_name st;
     request_count := request_count st;
     total_latency := total_latency st;
     max_latency := max_latency st;
     request_timestamps := v;
     time_gauge := time_gauge st;
     request_number := request_number st;
     confidence_distribution := confidence_distribution st |}.

Definition set_time_gauge (v : float) (st : State) : State :=
  {| default_model_name := default_model_name st;
     request_count := request_count st;
     total_latency := total_latency st;
     max_latency := max_latency st;
     request_timestamps := request_timestamps st;
     time_gauge := v;
     request_number := request_number st;
     confidence_distribution := confidence_distribution st |}.

Definition set_request_number (v : Z) (st : State) : State :=
  {| default_model_name := default_model_name st;
     request_count := request_count st;
     total_latency := total_latency st;
     max_latency := max_latency st;
     request_timestamps := request_timestamps st;
     time_gauge := time_gauge st;
     request_number := v;
     confidence_distribution := confidence_distribution st |}.

Definition set_confidence_distribution (v : Histogram) (st : State) : State :=
  {| default_model_name := default_model_name st;
     request_count := request_count st;
     total_latency := total_latency st;
     max_latency := max_latency st;
     request_timestamps := request_timestamps st;
     time_gauge := time_gauge st;
     request_number := request_number st;
     confidence_distribution := v |}.

(** A handler body: it runs from a state to a state and either returns or
    raises.  A raise keeps the state reached so far: nothing is rolled back. *)
Definition M (A : Type) : Type := State -> State * result A.

Definition ret {A} (a : A) : M A := fun st => (st, Ok a).

Definition bind {A B} (c : M A) (k : A -> M B) : M B :=
  fun st =>
    match c st with
    | (st', Ok a) => k a st'
    | (st', Raise e) => (st', Raise e)
    end.

(** An expression that touches no module variable. *)
Definition lift {A} (r : result A) : M A := fun st => (st, r).

(** Reading a module variable. *)
Definition gets {A} (f : State -> A) : M A := fun st => (st, Ok (f st)).

(** Writing a module variable. *)
Definition modify (f : State -> State) : M unit := fun st => (f st, Ok tt).

End Handlers.

Declare Scope py_scope.
Delimit Scope py_scope with py.
Notation "x <- c ;; k" := (bind c (fun x => k))
  (at level 61, c at next level, right associativity) : py_scope.
Notation "' pat <- c ;; k" := (bind c (fun x => match x with pat => k end))
  (at level 61, pat pattern, c at next level, right associativity) : py_scope.
Notation "c ;; k" := (bind c (fun _ => k))
  (at level 61, right associativity) : py_scope.

(** Sequencing of expressions that can raise but touch no state. *)
Definition result_bind {A B} (r : result A) (k : A -> result B) : result B :=
  match r with
  | Ok a => k a
  | Raise e => Raise e
  end.

(** ** The endpoints *)

Section Endpoints.

Context {E : Externals}.
Local Open Scope py_scope.

(** [process_image]: raw bytes to a BGR array. *)
Definition process_image (image_bytes : list Byte.byte) : result ndarray :=
  cv2_imdecode image_bytes.

(** The model choice, the same five lines in [predict] and in
    [predict_visualization]:
    [if model and model in models: ... else: models[default_model_name]]. *)
Definition choose_model (model : option string) : M (YOLO * string) :=
  let use_default :=
    name <- gets default_model_name ;;
    chosen_model <- lift (dict_index models name) ;;
    chosen_model_name <- gets default_model_name ;;
    ret (chosen_model, chosen_model_name) in
  match model with
  | Some name =>
      if truthy model && dict_mem models name
      then chosen_model <- lift (dict_index models name) ;;
           ret (chosen_model, name)
      else use_default
  | None => use_default
  end.

(** The body of the inner loop of [predict]: one box to one prediction. *)
Definition prediction_of_box (chosen_model : YOLO) (box : Box)
  : result Prediction :=
  let '(x1, y1, x2, y2) := xyxy box in
  let conf := conf box in
  let cls_id := cls box in
  match yolo_names chosen_model cls_id with
  | Some label =>
      Ok {| label := label;
            confidence := py_round conf 2;
            bbox := [x1; y1; x2; y2] |}
  | None => Raise (KeyError (str_of_int cls_id))
  end.

(** [for box in r.boxes: ... predictions.append(...)] *)
Fixpoint for_boxes (chosen_model : YOLO) (bs : list Box)
    (predictions : list Prediction) : result (list Prediction) :=
  match bs with
  | [] => Ok predictions
  | box :: bs' =>
      result_bind (prediction_of_box chosen_model box)
        (fun p => for_boxes chosen_model bs' (predictions ++ [p]))
  end.

(** [for r in results: for box in r.boxes: ...] *)
Fixpoint for_results (chosen_model : YOLO) (results : list Results)
    (predictions : list Prediction) : result (list Prediction) :=
  match results with
  | [] => Ok predictions
  | r :: results' =>
      result_bind (for_boxes chosen_model (boxes r) predictions)
        (fun predictions' => for_results chosen_model results' predictions')
  end.

(** The body of the /predict response. *)
Record PredictResponse : Type := {
  predictions : list Prediction;
  model_used : string
}.

(** Lines 206-214 of [predict]: the metrics update that follows inference. *)
Definition record_metrics (elapsed : float) (predictions : list Prediction)
  : M unit :=
  modify (fun st => set_request_count (request_count st + 1) st) ;;
  modify (fun st => set_total_latency (total_latency st + elapsed)%float st) ;;
  max <- gets max_latency ;;
  (if (max <? elapsed)%float
   then modify (set_max_latency elapsed)
   else ret tt) ;;
  total <- gets total_latency ;;
  count <- gets request_count ;;
  avg <- lift (truediv_int total count) ;;
  modify (set_time_gauge avg) ;;
  modify (fun st => set_request_number (request_number st + 1) st) ;;
  first <- lift (list_index predictions 0%nat) ;;
  modify (fun st =>
    set_confidence_distribution
      (hist_observe (confidence first) (confidence_distribution st)) st).

(** POST /predict.  [t_start] and [t_end] are the two readings of
    [time.time()]; [image] is what [image.file.read()] returns. *)
Definition predict (t_start t_end : float) (image : list Byte.byte)
    (model : option string) : M PredictResponse :=
  let start_request_time := t_start in
  modify (fun st =>
    set_request_timestamps (request_timestamps st ++ [start_request_time]) st) ;;
  ' (chosen_model, chosen_model_name) <- choose_model model ;;
  let contents := image in
  img <- lift (process_image contents) ;;
  results <- lift (yolo_predict chosen_model img 0.25%float 640) ;;
  predictions <- lift (for_results chosen_model results []) ;;
  let elapsed := (t_end - start_request_time)%float in
  record_metrics elapsed predictions ;;
  ret {| predictions := predictions; model_used := chosen_model_name |}.

(** [transform_predict_to_df]: the boxes of [results[0]] as rows, the class
    number replaced by its name where [labeles_dict] has one. *)
Definition row_of_box (labeles_dict : Z -> option string) (box : Box) : Row :=
  let '(x1, y1, x2, y2) := xyxy box in
  {| xmin := x1; ymin := y1; xmax := x2; ymax := y2;
     row_confidence := conf box;
     row_class := cls box;
     row_name := match labeles_dict (cls box) with
                 | Some name => name
                 | None => str_of_int (cls box)
                 end |}.

Definition transform_predict_to_df (results : list Results)
    (labeles_dict : Z -> option string) : result (list Row) :=
  result_bind (list_index results 0%nat)
    (fun r0 => Ok (map (row_of_box labeles_dict) (boxes r0))).

(** The text drawn for a row: [f"{row['name']}: {int(row['confidence']*100)}%"]. *)
Definition label_text (row : Row) : result string :=
  result_bind (int_of_float (row_confidence row * float_of_int 100)%float)
    (fun pct => Ok (row_name row ++ ": " ++ str_of_int pct ++ "%")%string).

(** The body of the loop of [add_bboxs_on_img]: one [box_label] call. *)
Definition box_label_of_row (row : Row) : result BoxLabel :=
  result_bind (label_text row)
    (fun text =>
       Ok {| bl_bbox := [xmin row; ymin row; xmax row; ymax row];
             bl_text := text;
             bl_color := colors (row_class row) true |}).

(** [for i, row in predict.iterrows(): ... annotator.box_label(...)] *)
Fixpoint for_rows (rows : list Row) (annotator : Annotator ndarray)
  : result (Annotator ndarray) :=
  match rows with
  | [] => Ok annotator
  | row :: rows' =>
      result_bind (box_label_of_row row)
        (fun call =>
           for_rows rows'
             {| im := im annotator; drawn := drawn annotator ++ [call] |})
  end.

(** [add_bboxs_on_img]: the rows, sorted by xmin, drawn one after the other on
    a fresh annotator. *)
Definition add_bboxs_on_img (image : ndarray) (predict : list Row)
  : result (Annotator ndarray) :=
  let annotator := {| im := image; drawn := [] |} in
  let predict := sort_values_xmin predict in
  for_rows predict annotator.

(** [get_bytes_from_image]: JPEG at quality 85. *)
Definition get_bytes_from_image (image : Annotator ndarray) : list Byte.byte :=
  save_jpeg image 85.

(** [StreamingResponse(content=..., media_type=...)] *)
Record StreamingResponse : Type := {
  content : list Byte.byte;
  media_type : string
}.

(** POST /predict_visualization. *)
Definition predict_visualization (t_start : float) (image : list Byte.byte)
    (model : option string) : M StreamingResponse :=
  let start_request_time := t_start in
  modify (fun st =>
    set_request_timestamps (request_timestamps st ++ [start_request_time]) st) ;;
  ' (chosen_model, chosen_model_name) <- choose_model model ;;
  let contents := image in
  img <- lift (process_image contents) ;;
  results <- lift (yolo_predict chosen_model img 0.25%float 640) ;;
  results <- lift (transform_predict_to_df results (yolo_names chosen_model)) ;;
  final_image <- lift (add_bboxs_on_img img results) ;;
  ret {| content := get_bytes_from_image final_image;
         media_type := "image/jpeg" |}.

(** What GET /management/models/{model}/set-default answers:
    [JSONResponse(status_code=404, content={"error": ...})] or the dict
    [{"success": ..., "default_model": ...}]. *)
Inductive SetDefaultResponse : Type :=
| SetDefaultNotFound (status_code : Z) (error : string)
| SetDefaultDone (success : bool) (default_model : string).

(** GET /management/models/{model}/set-default. *)
Definition set_default_model (model : string) : M SetDefaultResponse :=
  if negb (dict_mem models model)
  then ret (SetDefaultNotFound 404 "Model not found.")
  else
    modify (set_default_model_name model) ;;
    default <- gets default_model_name ;;
    ret (SetDefaultDone true default).

(** One entry of [dummy_configs]. *)
Record Config : Type := {
  input_size : list Z;
  batch_size : Z;
  confidence_threshold : float
}.

Definition dummy_configs : dict Config :=
  [("model_0"%string,
    {| input_size := [640; 640]; batch_size := 16;
       confidence_threshold := 0.25%float |});
   ("model_1"%string,
    {| input_size := [640; 640]; batch_size := 16;
       (* the float literal 0.30 *)
       confidence_threshold := 0x1.3333333333333p-2%float |})].

Inductive DescribeResponse : Type :=
| DescribeNotFound (status_code : Z) (error : string)
| DescribeDone (model : string) (config : option Config)
    (date_registered : string).

(** GET /management/models/{model}/describe. *)
Definition describe_model (model : string) : M DescribeResponse :=
  if negb (dict_mem models model)
  then ret (DescribeNotFound 404 "Model not found.")
  else ret (DescribeDone model (dict_get dummy_configs model) "2025-03-26").

(** GET /management/models. *)
Definition list_models : M (list string) := ret (dict_keys models).

(** The loop of [get_metrics]:
    [while request_timestamps and request_timestamps[0] < one_min_ago:
         request_timestamps.pop(0)].
    Each turn removes the first element; the loop stops at the first element
    that is not older than [one_min_ago], or when the list is empty. *)
Fixpoint pop_while_older (one_min_ago : float) (request_timestamps : list float)
  : list float :=
  match request_timestamps with
  | [] => []
  | t :: rest =>
      if (t <? one_min_ago)%float
      then pop_while_older one_min_ago rest
      else t :: rest
  end.

(** The body of the /metrics response. *)
Record MetricsResponse : Type := {
  request_rate_per_minute : Z;
  avg_latency_ms : float;
  max_latency_ms : float;
  total_requests : Z
}.

(** GET /metrics.  [now] is the reading of [time.time()]. *)
Definition get_metrics (now : float) : M MetricsResponse :=
  let one_min_ago := (now - float_of_int 60)%float in
  modify (fun st =>
    set_request_timestamps
      (pop_while_older one_min_ago (request_timestamps st)) st) ;;
  request_rate <- gets (fun st => Z.of_nat (List.length (request_timestamps st))) ;;
  count <- gets request_count ;;
  total <- gets total_latency ;;
  let avg_latency :=
    if negb (count =? 0)%Z
    then (total / float_of_int count * float_of_int 1000)%float
    else 0%float in
  max <- gets max_latency ;;
  let max_latency_ms := (max * float_of_int 1000)%float in
  count <- gets request_count ;;
  ret {| request_rate_per_minute := request_rate;
         avg_latency_ms := py_round avg_latency 2;
         max_latency_ms := py_round max_latency_ms 2;
         total_requests := count |}.

(** ** The server as a state machine *)

(** A request together with what the handler reads from outside while it
    serves it (the clock, the uploaded bytes). *)
Inductive Request : Type :=
| GetHealthStatus
| GetGroupInfo
| GetModels
| GetDescribe (model : string)
| GetSetDefault (model : string)
| PostPredict (t_start t_end : float) (image : list Byte.byte)
    (model : option string)
| PostPredictVisualization (t_start : float) (image : list Byte.byte)
    (model : option string)
| GetMetrics (now : float).

(** The state a request leaves behind, whether its handler returned or
    raised.  [health_status] and [group_info] name none of the variables of
    [State]. *)
Definition handle (r : Request) (st : State) : State :=
  match r with
  | GetHealthStatus | GetGroupInfo => st
  | GetModels => fst (list_models st)
  | GetDescribe model => fst (describe_model model st)
  | GetSetDefault model => fst (set_default_model model st)
  | PostPredict t_start t_end image model =>
      fst (predict t_start t_end image model st)
  | PostPredictVisualization t_start image model =>
      fst (predict_visualization t_start image model st)
  | GetMetrics now => fst (get_metrics now st)
  end.

(** Requests served one after the other. *)
Definition serve (rs : list Request) (st : State) : State :=
  fold_left (fun st r => handle r st) rs st.

(** The states the server can be in between two requests. *)
Inductive reachable : State -> Prop :=
| reachable_start : reachable initial_state
| reachable_step st r : reachable st -> reachable (handle r st).

(** The registry invariant: the default names a loaded model. *)
Definition default_is_registered (st : State) : Prop :=
  dict_mem models (default_model_name st) = true.

End Endpoints.

(** ** Threads serving /predict

    FastAPI runs a plain [def] endpoint in a thread pool, and [main.py] takes
    no lock.  A thread serving /predict is cut here into the steps at which
    it reads or writes a module variable; an augmented assignment [x += e] on
    a global is a read followed by a write.  Between two steps of one thread
    any other thread may run. *)

Section Threads.

Context {E : Externals}.

(** The locals a thread holds from line 206 on. *)
Record Locals : Type := {
  l_elapsed : float;
  l_predictions : list Prediction;
  l_chosen_model_name : string
}.

(** The line a thread is about to run. *)
Inductive pc : Type :=
| Line172
| Line174
| Line207_load (l : Locals)
| Line207_store (l : Locals) (count : Z)
| Line208_load (l : Locals)
| Line208_store (l : Locals) (total : float)
| Line209 (l : Locals)
| Line210 (l : Locals)
| Line212 (l : Locals)
| Line213 (l : Locals)
| Line214 (l : Locals)
| Returned (r : result PredictResponse).

(** A thread: the inputs of its request and where it stands. *)
Record Thread : Type := {
  th_start : float;
  th_end : float;
  th_image : list Byte.byte;
  th_model : option string;
  th_pc : pc
}.

Definition at_pc (th : Thread) (p : pc) : Thread :=
  {| th_start := th_start th; th_end := th_end th; th_image := th_image th;
     th_model := th_model th; th_pc := p |}.

(** A request not yet started. *)
Definition spawn (t_start t_end : float) (image : list Byte.byte)
    (model : option string) : Thread :=
  {| th_start := t_start; th_end := t_end; th_image := image;
     th_model := model; th_pc := Line172 |}.

(** Lines 174-206: model choice, decoding, inference and the predictions
    list.  They read [default_model_name] and write no module variable. *)
Definition lines_174_206 (th : Thread) (st : State) : result Locals :=
  result_bind (snd (choose_model (th_model th) st))
    (fun chosen =>
       let '(chosen_model, chosen_model_name) := chosen in
       result_bind (process_image (th_image th))
         (fun img =>
            result_bind (yolo_predict chosen_model img 0.25%float 640)
              (fun results =>
                 result_bind (for_results chosen_model results [])
                   (fun predictions =>
                      Ok {| l_elapsed := (th_end th - th_start th)%float;
                            l_predictions := predictions;
                            l_chosen_model_name := chosen_model_name |})))).

(** One step of one thread. *)
Definition thread_step (th : Thread) (st : State) : Thread * State :=
  match th_pc th with
  | Line172 =>
      (at_pc th Line174,
       set_request_timestamps (request_timestamps st ++ [th_start th]) st)
  | Line174 =>
      match lines_174_206 th st with
      | Ok l => (at_pc th (Line207_load l), st)
      | Raise e => (at_pc th (Returned (Raise e)), st)
      end
  | Line207_load l => (at_pc th (Line207_store l (request_count st)), st)
  | Line207_store l count =>
      (at_pc th (Line208_load l), set_request_count (count + 1) st)
  | Line208_load l => (at_pc th (Line208_store l (total_latency st)), st)
  | Line208_store l total =>
      (at_pc th (Line209 l), set_total_latency (total + l_elapsed l)%float st)
  | Line209 l =>
      if (max_latency st <? l_elapsed l)%float
      then (at_pc th (Line210 l), st)
      else (at_pc th (Line212 l), st)
  | Line210 l => (at_pc th (Line212 l), set_max_latency (l_elapsed l) st)
  | Line212 l =>
      match truediv_int (total_latency st) (request_count st) with
      | Ok avg => (at_pc th (Line213 l), set_time_gauge avg st)
      | Raise e => (at_pc th (Returned (Raise e)), st)
      end
  | Line213 l =>
      (at_pc th (Line214 l), set_request_number (request_number st + 1) st)
  | Line214 l =>
      match list_index (l_predictions l) 0%nat with
      | Ok first =>
          (at_pc th
             (Returned (Ok {| predictions := l_predictions l;
                              model_used := l_chosen_model_name l |})),
           set_confidence_distribution
             (hist_observe (confidence first) (confidence_distribution st)) st)
      | Raise e => (at_pc th (Returned (Raise e)), st)
      end
  | Returned _ => (th, st)
  end.

(** The threads in flight and the shared state. *)
Definition Pool : Type := (list Thread * State)%type.

(** The scheduler lets thread number [i] take one step. *)
Fixpoint step_nth (i : nat) (ths : list Thread) (st : State) : Pool :=
  match ths, i with
  | [], _ => ([], st)
  | th :: ths', O =>
      let '(th', st') := thread_step th st in (th' :: ths', st')
  | th :: ths', S i' =>
      let '(ths'', st') := step_nth i' ths' st in (th :: ths'', st')
  end.

(** A schedule: which thread steps, turn after turn. *)
Definition run_schedule (schedule : list nat) (c : Pool) : Pool :=
  fold_left (fun c i => step_nth i (fst c) (snd c)) schedule c.

(** A thread that has answered with a dict (HTTP 200). *)
Definition returned_ok (th : Thread) : bool :=
  match th_pc th with
  | Returned (Ok _) => true
  | _ => false
  end.

(** One thread running alone for [n] steps. *)
Fixpoint run_alone (n : nat) (th : Thread) (st : State) : Thread * State :=
  match n with
  | O => (th, st)
  | S n' => let '(th', st') := thread_step th st in run_alone n' th' st'
  end.

End Threads.

(** ** The specification's wording, for comparison *)

(** "Entries older than 60 seconds", with the comparison of [get_metrics]. *)
Definition older_than_a_minute (now t : float) : bool :=
  (t <? now - float_of_int 60)%float.

(** "prunes recent_timestamps of entries older than 60 seconds": every such
    entry goes, wherever it stands in the sequence. *)
Definition spec_prune (now : float) (recent_timestamps : list float)
  : list float :=
  filter (fun t => negb (older_than_a_minute now t)) recent_timestamps.

(** Timestamps in the order of the clock: each is at most the ones after it. *)
Definition nondecreasing (ts : list float) : Prop :=
  StronglySorted (fun a b => (a <=? b)%float = true) ts.

(** The integer nearest to [num / den] for [den > 0], ties to even. *)
Definition round_half_even (num den : Z) : Z :=
  let q := num / den in
  let r := num mod den in
  match 2 * r ?= den with
  | Lt => q
  | Gt => q + 1
  | Eq => if Z.even q then q else q + 1
  end.




(** "resolve(optional_name)": the handle of [optional_name] when it is
    provided and present in [models], otherwise the handle of the current
    default name; [None] stands for a default that names no model. *)
Definition spec_resolve {E : Externals} (optional_name : option string)
    (default_name : string) : option (YOLO * string) :=
  let default :=
    match dict_get models default_name with
    | Some handle => Some (handle, default_name)
    | None => None
    end in
  match optional_name with
  | Some name =>
      match dict_get models name with
      | Some handle => Some (handle, name)
      | None => default
      end
  | None => default
  end.


(** ** Stand-ins for the collaborators, to run the handlers on *)

Module Stub.

Inductive Model : Type := Best | V1.

(** An uploaded file stands for the picture it holds: one byte per object in
    it, [x01] a person and [x02] a car; any other byte is background.  No
    bytes at all do not decode, and a first byte [xff] makes inference fail. *)
Definition detect (b : Byte.byte) : list Box :=
  match b with
  | Byte.x01 =>
      [{| xyxy := (16, 8, 64, 128)%float; conf := 0.875%float; cls := 0 |}]
  | Byte.x02 =>
      [{| xyxy := (4, 32, 96, 80)%float; conf := 0.5078125%float; cls := 2 |}]
  | _ => []
  end.

Definition names (m : Model) (c : Z) : option string :=
  match c with
  | 0 => Some "person"%string
  | 2 => Some "car"%string
  | _ => None
  end.

(** Rounding to [ndigits] decimals on the exact value of the float. *)
Definition round (x : float) (ndigits : Z) : float :=
  match Prim2SF x with
  | S754_finite s m e =>
      let scale := 10 ^ ndigits in
      let n := if 0 <=? e then Z.pos m * 2 ^ e * scale
               else round_half_even (Z.pos m * scale) (2 ^ (- e)) in
      (float_of_int (if s then - n else n) / float_of_int scale)%float
  | _ => x
  end.

(** Insertion of a row before the first row of larger xmin. *)
Fixpoint insert_row (r : Row) (sorted : list Row) : list Row :=
  match sorted with
  | [] => [r]
  | r' :: rest =>
      if (xmin r' <=? xmin r)%float
      then r' :: insert_row r rest
      else r :: r' :: rest
  end.

Definition sort_rows (rows : list Row) : list Row :=
  fold_left (fun sorted r => insert_row r sorted) rows [].

#[export] Instance externals : Externals := {|
  YOLO := Model;
  model_0 := Best;
  model_1 := V1;
  ndarray := list Byte.byte;
  cv2_imdecode := fun b =>
    match b with
    | [] => Raise (ExternalError "cv2.error")
    | _ => Ok b
    end;
  yolo_predict := fun m img conf imgsz =>
    match img with
    | Byte.xff :: _ => Raise (ExternalError "inference failed")
    | _ => Ok [{| boxes := flat_map detect img |}]
    end;
  yolo_names := names;
  py_round := round;
  Histogram := list float;
  hist_init := [];
  hist_observe := fun v h => h ++ [v];
  sort_values_xmin := sort_rows;
  colors := fun i bgr => (i, i, i);
  save_jpeg := fun a quality => flat_map (fun _ => [Byte.xd8]) (drawn a)
|}.

(** A picture with nothing in it, one with a person, one with a car. *)
Definition empty_picture : list Byte.byte := [Byte.x00].
Definition person_picture : list Byte.byte := [Byte.x01].
Definition car_picture : list Byte.byte := [Byte.x02].


(** Two /predict requests served in a row, the second while the clock reads
    70 seconds less than at the first (the wall clock was set back). *)
Definition clock_set_back : list Request :=
  [PostPredict 100 101 person_picture None;
   PostPredict 30 31.5 person_picture None].

(** Two /predict requests in flight at once; the first read the clock at
    100, the second half a second later. *)
Definition two_requests : list Thread :=
  [spawn 100 101 person_picture None; spawn 100.5 101.5 person_picture None].

(** Each thread appends its start time, runs inference and reads
    [request_count] (three steps); only then does each write it back and
    finish (eight steps). *)
Definition both_read_then_write : list nat :=
  ([0; 0; 0] ++ [1; 1; 1] ++ repeat 0 8 ++ repeat 1 8)%nat.

(** The second thread appends its start time before the first one does;
    after that each runs to its end. *)
Definition second_appends_first : list nat :=
  ([1; 0] ++ repeat 0 10 ++ repeat 1 10)%nat.

(** What /predict answers for the picture of a person at start-up. *)
Definition person_response : PredictResponse :=
  {| predictions :=
       [{| label := "person"; confidence := round 0.875 2;
           bbox := [16; 8; 64; 128]%float |}];
     model_used := "model_0" |}.

(** Collaborators whose models have no name for any class. *)
Definition externals_without_names : Externals := {|
  YOLO := Model;
  model_0 := Best;
  model_1 := V1;
  ndarray := list Byte.byte;
  cv2_imdecode := fun b =>
    match b with
    | [] => Raise (ExternalError "cv2.error")
    | _ => Ok b
    end;
  yolo_predict := fun m img conf imgsz =>
    Ok [{| boxes := flat_map detect img |}];
  yolo_names := fun m c => None;
  py_round := round;
  Histogram := list float;
  hist_init := [];
  hist_observe := fun v h => h ++ [v];
  sort_values_xmin := sort_rows;
  colors := fun i bgr => (i, i, i);
  save_jpeg := fun a quality => flat_map (fun _ => [Byte.xd8]) (drawn a)
|}.

(** A /predict, a read half a minute later and a /predict_visualization. *)
Definition quiet_minute : list Request :=
  [PostPredict 100 101 person_picture None;
   GetMetrics 130;
   PostPredictVisualization 150 car_picture None].

End Stub.

(** ** The vocabulary of the statements *)

Section Vocabulary.

Context {E : Externals}.

(** A handler body keeps a relation between the state it starts from and the
    state it leaves, whether it returns or raises. *)
Definition keeps {A} (R : State -> State -> Prop) (c : M A) : Prop :=
  forall st, R st (fst (c st)).

(** The two states have the same default model. *)
Definition same_default (s s' : State) : Prop :=
  default_model_name s' = default_model_name s.

(** The state after lines 207-210: the three latency counters updated. *)
Definition counters_updated (elapsed : float) (st : State) : State :=
  let st1 := set_request_count (request_count st + 1) st in
  let st2 := set_total_latency (total_latency st1 + elapsed)%float st1 in
  if (max_latency st2 <? elapsed)%float
  then set_max_latency elapsed st2
  else st2.

(** The state after lines 212-213: the gauge set and the counter bumped. *)
Definition exported (avg : float) (st : State) : State :=
  set_request_number (request_number st + 1) (set_time_gauge avg st).

(** The state after line 172: the start time appended. *)
Definition timestamped (t_start : float) (st : State) : State :=
  set_request_timestamps (request_timestamps st ++ [t_start]) st.

(** The timestamps of the second state are those of the first, followed by
    the start times of the requests served in between. *)
Definition timestamps_extended (s s' : State) : Prop :=
  exists added, request_timestamps s' = request_timestamps s ++ added.





(** The /predict request a thread serves. *)
Definition request_of (th : Thread) : Request :=
  PostPredict (th_start th) (th_end th) (th_image th) (th_model th).

(** The schedule that lets each of [n] threads run to its end (eleven steps
    at most) before the next one starts. *)
Definition one_after_the_other (n : nat) : list nat :=
  flat_map (fun i => repeat i 11%nat) (seq 0 n).

(** A thread at its end, holding what [predict] gives from the state. *)
Definition finished (th : Thread) (st : State) : Thread :=
  at_pc th (Returned (snd (predict (th_start th) (th_end th) (th_image th)
                             (th_model th) st))).

(** The threads at their ends when their requests are served in order. *)
Fixpoint served (ths : list Thread) (st : State) : list Thread :=
  match ths with
  | [] => []
  | th :: ths' => finished th st :: served ths' (handle (request_of th) st)
  end.

(** What [predict] makes of one box: the label of its class, its confidence
    rounded to two decimals, and its four corners. *)
Definition listed_as (chosen_model : YOLO) (box : Box) (p : Prediction)
  : Prop :=
  yolo_names chosen_model (cls box) = Some (label p) /\
  confidence p = py_round (conf box) 2 /\
  bbox p = (let '(x1, y1, x2, y2) := xyxy box in [x1; y1; x2; y2]).

(** The start times that a list of requests appends to [request_timestamps],
    in the order of the requests. *)
Definition start_times (rs : list Request) : list float :=
  flat_map
    (fun r =>
       match r with
       | PostPredict t_start _ _ _ => [t_start]
       | PostPredictVisualization t_start _ _ => [t_start]
       | _ => []
       end) rs.

(** The counters, the gauge and the Prometheus counter agree: the counter is
    [request_count]; with no request counted yet the latencies and the gauge
    are the zeros of start-up; otherwise the gauge is the mean latency. *)
Definition metrics_agree (st : State) : Prop :=
  0 <= request_count st /\
  request_number st = request_count st /\
  if request_count st =? 0
  then total_latency st = 0%float /\ max_latency st = 0%float /\
       time_gauge st = 0%float
  else time_gauge st
       = (total_latency st / float_of_int (request_count st))%float.

(** A thread that has run line 172. *)
Definition started (th : Thread) : bool :=
  match th_pc th with
  | Line172 => false
  | _ => true
  end.

(** One for a thread that has run line 172, zero for one that has not. *)
Definition started_bit (th : Thread) : nat :=
  if started th then 1%nat else 0%nat.

(** The number of threads of a pool that have run line 172. *)
Definition started_count (ths : list Thread) : nat :=
  List.length (filter started ths).

End Vocabulary.

(** * Properties *)

(** ** Order on floats *)

Section FloatOrder.

Lemma SFcompare_le_lt_trans (a b c : spec_float) :
  SFleb a b = true -> SFltb b c = true -> SFltb a c = true.
Proof.
  unfold SFleb, SFltb.
  destruct a as [sa | sa | | sa ma ea], b as [sb | sb | | sb mb eb],
    c as [sc | sc | | sc mc ec];
    simpl; try discriminate;
    try (destruct sa); try (destruct sb); try (destruct sc);
    simpl; try discriminate; try reflexivity; try (intros _ H; exact H).
  - (* three negative finite floats *)
    change (PosDef.Pos.compare_cont Eq) with Pos.compare.
    destruct (Z.compare_spec ea eb), (Z.compare_spec eb ec),
      (Z.compare_spec ea ec); subst; try lia; try discriminate;
      try reflexivity.
    destruct (Pos.compare_spec ma mb), (Pos.compare_spec mb mc),
      (Pos.compare_spec ma mc); subst; simpl; try lia; try discriminate;
      try reflexivity.
  - (* three positive finite floats *)
    change (PosDef.Pos.compare_cont Eq) with Pos.compare.
    destruct (Z.compare_spec ea eb), (Z.compare_spec eb ec),
      (Z.compare_spec ea ec); subst; try lia; try discriminate;
      try reflexivity.
    destruct (Pos.compare_spec ma mb), (Pos.compare_spec mb mc),
      (Pos.compare_spec ma mc); subst; simpl; try lia; try discriminate;
      try reflexivity.
Qed.

(** [x <= y] and [y < z] give [x < z], for the comparisons of floats. *)
Lemma float_leb_ltb_trans (x y z : float) :
  (x <=? y)%float = true -> (y <? z)%float = true -> (x <? z)%float = true.
Proof.
  rewrite leb_spec, !ltb_spec. apply SFcompare_le_lt_trans.
Qed.

End FloatOrder.

(** ** The pruning loop *)

Section Pruning.

(** The loop removes a prefix whose entries are all older than the bound, and
    stops on an entry that is not (or on the empty list). *)
Lemma pop_while_older_prefix (c : float) (ts : list float) :
  exists stale,
    ts = stale ++ pop_while_older c ts /\
    Forall (fun t => (t <? c)%float = true) stale /\
    (forall t rest, pop_while_older c ts = t :: rest ->
                    (t <? c)%float = false).
Proof.
  induction ts as [| t ts IH]; simpl.
  - exists []. repeat split; auto. intros; discriminate.
  - destruct (t <? c)%float eqn:Ht.
    + destruct IH as (stale & Heq & Hst & Hhd).
      exists (t :: stale). repeat split.
      * simpl. now rewrite <- Heq.
      * now constructor.
      * exact Hhd.
    + exists []. repeat split; auto.
      intros t' rest [= <- _]. exact Ht.
Qed.

(** When every entry is older than the bound, nothing is left. *)
Lemma pop_while_older_all (c : float) (ts : list float) :
  Forall (fun t => (t <? c)%float = true) ts -> pop_while_older c ts = [].
Proof.
  induction 1 as [| t ts Ht _ IH]; simpl; [reflexivity |].
  now rewrite Ht.
Qed.

(** On timestamps in the order of the clock the loop removes every entry
    older than the bound: it is the filter. *)
Lemma pop_while_older_filter (c : float) (ts : list float) :
  nondecreasing ts ->
  pop_while_older c ts = filter (fun t => negb (t <? c)%float) ts.
Proof.
  induction 1 as [| t ts Hs IH Hall]; simpl; [reflexivity |].
  destruct (t <? c)%float eqn:Ht; simpl; [exact IH |].
  f_equal. symmetry. apply forallb_filter_id.
  apply forallb_forall. intros u Hu.
  rewrite Forall_forall in Hall. specialize (Hall u Hu).
  destruct (u <? c)%float eqn:Huc; [| reflexivity].
  rewrite (float_leb_ltb_trans Hall Huc) in Ht. discriminate.
Qed.

(** The loop keeps the order of the clock. *)
Lemma pop_while_older_nondecreasing (c : float) (ts : list float) :
  nondecreasing ts -> nondecreasing (pop_while_older c ts).
Proof.
  induction 1 as [| t ts Hs IH Hall]; simpl; [constructor |].
  destruct (t <? c)%float; [exact IH | now constructor].
Qed.

End Pruning.

(** ** Reasoning on handler bodies *)

Section Frames.

Context {E : Externals}.

Variable R : State -> State -> Prop.
Hypothesis R_refl : forall st, R st st.
Hypothesis R_trans : forall s1 s2 s3, R s1 s2 -> R s2 s3 -> R s1 s3.

Lemma keeps_ret {A} (a : A) : keeps R (ret a).
Proof. intro st. apply R_refl. Qed.

Lemma keeps_lift {A} (r : result A) : keeps R (lift r).
Proof. intro st. apply R_refl. Qed.

Lemma keeps_gets {A} (f : State -> A) : keeps R (gets f).
Proof. intro st. apply R_refl. Qed.

Lemma keeps_modify (f : State -> State) :
  (forall st, R st (f st)) -> keeps R (modify f).
Proof. intros H st. apply H. Qed.

Lemma keeps_bind {A B} (c : M A) (k : A -> M B) :
  keeps R c -> (forall a, keeps R (k a)) -> keeps R (bind c k).
Proof.
  intros Hc Hk st. unfold bind.
  specialize (Hc st). destruct (c st) as [st' [a | e]]; simpl in *.
  - eapply R_trans; [exact Hc | apply Hk].
  - exact Hc.
Qed.

End Frames.

(** Splits a handler body along its binds, branches and tuple patterns, and
    leaves the writes to the caller's tactic [leaf]. *)
Ltac keeps_with refl trans leaf :=
  repeat first
    [ apply (keeps_ret refl)
    | apply (keeps_lift refl)
    | apply (keeps_gets refl)
    | apply keeps_modify; intro; leaf
    | apply (keeps_bind trans); [| intros ?]
    | match goal with
      | |- keeps _ (match ?x with _ => _ end) => destruct x
      | |- keeps _ (let 'pair _ _ := ?x in _) => destruct x
      end ].

(** ** The model registry *)

Section Registry.

Context {E : Externals}.

Lemma same_default_refl st : same_default st st.
Proof. reflexivity. Qed.

Lemma same_default_trans s1 s2 s3 :
  same_default s1 s2 -> same_default s2 s3 -> same_default s1 s3.
Proof. unfold same_default. congruence. Qed.

Ltac keeps_default :=
  keeps_with same_default_refl same_default_trans ltac:(reflexivity).

Lemma choose_model_keeps_default model : keeps same_default (choose_model model).
Proof. unfold choose_model. keeps_default. Qed.

Lemma predict_keeps_default t_start t_end image model :
  keeps same_default (predict t_start t_end image model).
Proof. unfold predict, record_metrics, choose_model. keeps_default. Qed.

Lemma predict_visualization_keeps_default t_start image model :
  keeps same_default (predict_visualization t_start image model).
Proof. unfold predict_visualization, choose_model. keeps_default. Qed.

Lemma get_metrics_keeps_default now : keeps same_default (get_metrics now).
Proof. unfold get_metrics. keeps_default. Qed.

(** [set_default_model] writes a name only after finding it in [models]. *)
Lemma set_default_model_registered model st :
  default_is_registered st ->
  default_is_registered (fst (set_default_model model st)).
Proof.
  unfold default_is_registered, set_default_model. intro H.
  destruct (dict_mem models model) eqn:Hm; simpl; [exact Hm | exact H].
Qed.

(** Every handler leaves the default registered. *)
Lemma handle_registered r st :
  default_is_registered st -> default_is_registered (handle r st).
Proof.
  unfold default_is_registered. intro H.
  destruct r; cbn [handle].
  - exact H.
  - exact H.
  - exact H.
  - unfold describe_model. now destruct (negb (dict_mem models model)).
  - now apply set_default_model_registered.
  - now rewrite predict_keeps_default.
  - now rewrite predict_visualization_keeps_default.
  - now rewrite get_metrics_keeps_default.
Qed.

(** Reading the model choice off the registry: the state is not written, and
    the outcome is the one [spec_resolve] describes. *)
Lemma choose_model_resolve model st :
  choose_model model st =
    (st, match spec_resolve model (default_model_name st) with
         | Some chosen => Ok chosen
         | None => Raise (KeyError (default_model_name st))
         end).
Proof.
  unfold choose_model, spec_resolve.
  destruct model as [name |].
  - destruct (dict_get models name) as [h |] eqn:Hn.
    + assert (Ht : truthy (Some name) = true).
      { destruct name; [discriminate Hn | reflexivity]. }
      rewrite Ht. unfold dict_mem, bind, lift, ret, dict_index.
      now rewrite Hn.
    + unfold dict_mem at 1. rewrite Hn, andb_false_r.
      unfold bind, gets, lift, ret, dict_index.
      now destruct (dict_get models (default_model_name st)).
  - unfold bind, gets, lift, ret, dict_index.
    now destruct (dict_get models (default_model_name st)).
Qed.

(** A registered default always resolves. *)
Lemma registered_lookup st :
  default_is_registered st ->
  exists handle,
    dict_get models (default_model_name st) = Some handle.
Proof.
  unfold default_is_registered, dict_mem.
  destruct (dict_get models (default_model_name st)) as [h |]; [| discriminate].
  intros _. now exists h.
Qed.

(** C9: the registry invariant.  [default_model_name] is a key of [models]
    at start-up; every handler keeps it so, hence it is so in every state the
    server reaches, and there [models[default_model_name]] never raises.
    [set_default_model] leaves the state alone on a name that is not
    registered. *)
Theorem default_model_name_always_registered :
  default_is_registered initial_state /\
  (forall r st, default_is_registered st -> default_is_registered (handle r st)) /\
  (forall st, reachable st ->
     default_is_registered st /\
     exists handle, dict_index models (default_model_name st) = Ok handle) /\
  (forall model st,
     dict_mem models model = false -> fst (set_default_model model st) = st).
Proof.
  split; [reflexivity |].
  split; [exact handle_registered |].
  split.
  - intros st Hr.
    assert (Hreg : default_is_registered st).
    { induction Hr; [reflexivity | now apply handle_registered]. }
    split; [exact Hreg |].
    destruct (registered_lookup Hreg) as [h Hh].
    exists h. unfold dict_index. now rewrite Hh.
  - intros model st Hm. unfold set_default_model. now rewrite Hm.
Qed.

(** C4: [set_default_model] on a name that is not registered answers 404 and
    leaves the state as it was; on a registered name it makes that name the
    default, answers success with it, and the next model choice of a request
    that names no model is the model just set. *)
Theorem set_default_model_spec (model : string) (st : State) :
  (dict_mem models model = false ->
     set_default_model model st =
       (st, Ok (SetDefaultNotFound 404 "Model not found."))) /\
  (forall handle, dict_get models model = Some handle ->
     let st' := fst (set_default_model model st) in
     set_default_model model st = (st', Ok (SetDefaultDone true model)) /\
     default_model_name st' = model /\
     st' = set_default_model_name model st /\
     choose_model None st' = (st', Ok (handle, model))).
Proof.
  split.
  - intro Hm. unfold set_default_model. now rewrite Hm.
  - intros h Hh st'.
    assert (Hm : dict_mem models model = true).
    { unfold dict_mem. now rewrite Hh. }
    assert (Hst : st' = set_default_model_name model st).
    { unfold st', set_default_model. now rewrite Hm. }
    repeat split.
    + unfold st', set_default_model. now rewrite Hm.
    + now rewrite Hst.
    + exact Hst.
    + rewrite choose_model_resolve, Hst. unfold spec_resolve.
      cbn [default_model_name set_default_model_name].
      now rewrite Hh.
Qed.

End Registry.

(** ** /predict *)

Section Predict.

Context {E : Externals}.

(** [record_metrics], outcome by outcome. *)
Lemma record_metrics_run elapsed (preds : list Prediction) st :
  record_metrics elapsed preds st =
    let st2 := counters_updated elapsed st in
    match truediv_int (total_latency st2) (request_count st2) with
    | Raise e => (st2, Raise e)
    | Ok avg =>
        let st3 := exported avg st2 in
        match list_index preds 0%nat with
        | Raise e => (st3, Raise e)
        | Ok first =>
            (set_confidence_distribution
               (hist_observe (confidence first) (confidence_distribution st3))
               st3, Ok tt)
        end
    end.
Proof.
  unfold record_metrics, counters_updated, exported, bind, modify, gets, lift, ret.
  cbn [max_latency set_total_latency set_request_count total_latency
       request_count].
  destruct (max_latency st <? elapsed)%float;
    cbn [max_latency set_total_latency set_request_count total_latency
         request_count set_max_latency];
    destruct (truediv_int (total_latency st + elapsed) (request_count st + 1));
    try reflexivity;
    destruct (list_index preds 0%nat); reflexivity.
Qed.

(** [predict], outcome by outcome. *)
Lemma predict_run t_start t_end image model st :
  predict t_start t_end image model st =
    let st1 := timestamped t_start st in
    match spec_resolve model (default_model_name st) with
    | None => (st1, Raise (KeyError (default_model_name st)))
    | Some (chosen_model, chosen_model_name) =>
        match process_image image with
        | Raise e => (st1, Raise e)
        | Ok img =>
            match yolo_predict chosen_model img 0.25%float 640 with
            | Raise e => (st1, Raise e)
            | Ok results =>
                match for_results chosen_model results [] with
                | Raise e => (st1, Raise e)
                | Ok preds =>
                    match record_metrics (t_end - t_start)%float preds st1 with
                    | (st2, Raise e) => (st2, Raise e)
                    | (st2, Ok _) =>
                        (st2, Ok {| predictions := preds;
                                    model_used := chosen_model_name |})
                    end
                end
            end
        end
    end.
Proof.
  unfold predict. unfold bind at 1. unfold modify at 1.
  fold (timestamped t_start st).
  unfold bind at 1. rewrite choose_model_resolve.
  change (default_model_name (timestamped t_start st))
    with (default_model_name st).
  cbv zeta.
  destruct (spec_resolve model (default_model_name st)) as [[h name] |];
    [| reflexivity].
  unfold bind, lift, ret.
  destruct (process_image image) as [img | e]; [| reflexivity].
  destruct (yolo_predict h img 0.25%float 640) as [results | e];
    [| reflexivity].
  destruct (for_results h results []) as [preds | e]; [| reflexivity].
  destruct (record_metrics (t_end - t_start)%float preds
              (timestamped t_start st)) as [st2 [[] | e]]; reflexivity.
Qed.

(** The counters only grow: no request count below zero is ever reached. *)
Lemma request_count_nonnegative st : reachable st -> 0 <= request_count st.
Proof.
  induction 1 as [| st r _ IH]; [simpl; lia |].
  destruct r; cbn [handle]; try exact IH.
  - unfold describe_model. now destruct (negb (dict_mem models model)).
  - unfold set_default_model.
    now destruct (negb (dict_mem models model)).
  - rewrite predict_run. cbv zeta.
    destruct (spec_resolve model (default_model_name st)) as [[h name] |];
      [| exact IH].
    destruct (process_image image); [| exact IH].
    destruct (yolo_predict h a 0.25%float 640) as [results |]; [| exact IH].
    destruct (for_results h results []) as [preds |]; [| exact IH].
    rewrite record_metrics_run. cbv zeta.
    assert (Hc : forall el s, 0 <= request_count s ->
                              0 <= request_count (counters_updated el s)).
    { intros el s Hs. unfold counters_updated. cbv zeta.
      destruct (_ <? _)%float; simpl; lia. }
    specialize (Hc (t_end - t_start)%float (timestamped t_start st) IH).
    destruct (truediv_int _ _); [| exact Hc].
    destruct (list_index preds 0%nat); exact Hc.
  - assert (Hk : keeps (fun s s' => request_count s' = request_count s)
                   (predict_visualization t_start image model)).
    { unfold predict_visualization, choose_model.
      keeps_with (fun s : State => eq_refl (request_count s))
                 (fun (s1 s2 s3 : State)
                      (H12 : request_count s2 = request_count s1)
                      (H23 : request_count s3 = request_count s2) =>
                    eq_trans H23 H12)
                 ltac:(reflexivity). }
    now rewrite Hk.
Qed.

(** Whatever [predict] does next, its start time is on the list. *)
Lemma predict_appends_timestamp t_start t_end image model st :
  request_timestamps (fst (predict t_start t_end image model st))
    = request_timestamps st ++ [t_start].
Proof.
  rewrite predict_run. cbv zeta.
  destruct (spec_resolve model (default_model_name st)) as [[h name] |];
    [| reflexivity].
  destruct (process_image image) as [img |]; [| reflexivity].
  destruct (yolo_predict h img 0.25%float 640) as [results |];
    [| reflexivity].
  destruct (for_results h results []) as [preds |]; [| reflexivity].
  rewrite record_metrics_run. cbv zeta.
  unfold counters_updated, exported. cbv zeta.
  destruct (_ <? _)%float; destruct (truediv_int _ _); try reflexivity;
    destruct (list_index preds 0%nat); reflexivity.
Qed.

(** C1 (the code does not do this): a /predict request whose inference finds
    nothing.  The model choice, the decoding and the inference succeed and
    the predictions list is empty; [predictions[0]] then raises IndexError,
    which [predict] does not catch: the request ends with that exception
    and no response body, after the counters, the gauge and the Prometheus
    counter have been updated. *)
Theorem predict_zero_detections_raises t_start t_end image model st
    chosen_model chosen_model_name img results :
  request_count st <> -1 ->
  spec_resolve model (default_model_name st)
    = Some (chosen_model, chosen_model_name) ->
  process_image image = Ok img ->
  yolo_predict chosen_model img 0.25%float 640 = Ok results ->
  for_results chosen_model results [] = Ok [] ->
  snd (predict t_start t_end image model st) = Raise IndexError /\
  request_count (fst (predict t_start t_end image model st))
    = request_count st + 1.
Proof.
  intros Hc Hr Hi Hy Hf.
  rewrite predict_run. cbv zeta. rewrite Hr, Hi, Hy, Hf.
  rewrite record_metrics_run. cbv zeta.
  assert (Hn : request_count
                 (counters_updated (t_end - t_start) (timestamped t_start st))
               = request_count st + 1).
  { unfold counters_updated. cbv zeta. now destruct (_ <? _)%float. }
  unfold truediv_int. rewrite Hn.
  destruct (request_count st + 1 =? 0) eqn:Hz; [lia |].
  cbn [list_index nth_error fst snd]. split; [reflexivity |].
  unfold exported. cbn [request_count set_request_number set_time_gauge].
  exact Hn.
Qed.

(** C5: the model a /predict request runs on.  In a state whose default is
    registered the choice raises nothing and writes nothing.  A provided,
    registered name is chosen together with its own model; otherwise the
    default name at the time of the call is chosen together with its model.
    Whenever the request answers, inference was run on the chosen model and
    [model_used] is the chosen name; and it does answer when decoding,
    inference and the labels succeed and something was detected. *)
Theorem predict_uses_chosen_model t_start t_end image model st :
  default_is_registered st ->
  exists chosen_model chosen_model_name,
    choose_model model st = (st, Ok (chosen_model, chosen_model_name)) /\
    dict_get models chosen_model_name = Some chosen_model /\
    (forall name, model = Some name -> dict_mem models name = true ->
                  chosen_model_name = name) /\
    (model = None \/ (exists name, model = Some name /\
                                   dict_mem models name = false) ->
     chosen_model_name = default_model_name st) /\
    (forall st' response,
       predict t_start t_end image model st = (st', Ok response) ->
       model_used response = chosen_model_name /\
       exists img results,
         process_image image = Ok img /\
         yolo_predict chosen_model img 0.25%float 640 = Ok results /\
         for_results chosen_model results [] = Ok (predictions response)) /\
    (forall img results p ps,
       process_image image = Ok img ->
       yolo_predict chosen_model img 0.25%float 640 = Ok results ->
       for_results chosen_model results [] = Ok (p :: ps) ->
       request_count st <> -1 ->
       snd (predict t_start t_end image model st)
         = Ok {| predictions := p :: ps; model_used := chosen_model_name |}).
Proof.
  intro Hreg. destruct (registered_lookup Hreg) as [hd Hd].
  assert (Hres : exists h n,
             spec_resolve model (default_model_name st) = Some (h, n) /\
             dict_get models n = Some h /\
             (forall name, model = Some name -> dict_mem models name = true ->
                           n = name) /\
             (model = None \/ (exists name, model = Some name /\
                                            dict_mem models name = false) ->
              n = default_model_name st)).
  { unfold spec_resolve. rewrite Hd. destruct model as [name |].
    - unfold dict_mem. destruct (dict_get models name) as [h |] eqn:Hn.
      + exists h, name. repeat split; auto.
        * now intros name' [= ->] _.
        * intros [Hnone | (name' & [= <-] & Hm)]; [discriminate |].
          rewrite Hn in Hm. discriminate.
      + exists hd, (default_model_name st). repeat split; auto.
        intros name' [= <-]. rewrite Hn. discriminate.
    - exists hd, (default_model_name st). repeat split; auto.
      intros name' Hname. discriminate. }
  destruct Hres as (h & n & Hres & Hget & Hgiven & Hdefault).
  exists h, n. rewrite choose_model_resolve, Hres.
  repeat split; auto.
  - rewrite predict_run in H. cbv zeta in H. rewrite Hres in H.
    destruct (process_image image); [| discriminate].
    destruct (yolo_predict h a 0.25%float 640); [| discriminate].
    destruct (for_results h a0 []); [| discriminate].
    destruct (record_metrics _ _ _) as [st2 [[] | e]]; [| discriminate].
    now injection H as _ <-.
  - rewrite predict_run in H. cbv zeta in H. rewrite Hres in H.
    destruct (process_image image) as [img |]; [| discriminate].
    destruct (yolo_predict h img 0.25%float 640) as [results |] eqn:Hy;
      [| discriminate].
    destruct (for_results h results []) as [preds |] eqn:Hf; [| discriminate].
    destruct (record_metrics _ _ _) as [st2 [[] | e]]; [| discriminate].
    injection H as _ <-. exists img, results. auto.
  - intros img results p ps Hi Hy Hf Hc.
    rewrite predict_run. cbv zeta. rewrite Hres, Hi, Hy, Hf.
    rewrite record_metrics_run. cbv zeta.
    assert (Hn : request_count
                   (counters_updated (t_end - t_start) (timestamped t_start st))
                 = request_count st + 1).
    { unfold counters_updated. cbv zeta. now destruct (_ <? _)%float. }
    unfold truediv_int. rewrite Hn.
    destruct (request_count st + 1 =? 0) eqn:Hz; [lia |].
    reflexivity.
Qed.

(** C10: the metrics updates of /predict are not tied to its success.  The
    start time is appended to [request_timestamps] whatever happens next; a
    request that fails while choosing the model, decoding or running
    inference leaves exactly that append behind; a request that gets through
    inference and fails on [predictions[0]] has by then updated
    [request_count], [total_latency], [max_latency], the gauge and the
    Prometheus counter, and nothing of it is undone. *)
Theorem predict_metrics_survive_failure t_start t_end image model st :
  request_timestamps (fst (predict t_start t_end image model st))
    = request_timestamps st ++ [t_start] /\
  (forall chosen_model chosen_model_name,
     spec_resolve model (default_model_name st)
       = Some (chosen_model, chosen_model_name) ->
     (forall e, process_image image = Raise e ->
        predict t_start t_end image model st
          = (timestamped t_start st, Raise e)) /\
     (forall img e,
        process_image image = Ok img ->
        yolo_predict chosen_model img 0.25%float 640 = Raise e ->
        predict t_start t_end image model st
          = (timestamped t_start st, Raise e)) /\
     (forall img results avg,
        process_image image = Ok img ->
        yolo_predict chosen_model img 0.25%float 640 = Ok results ->
        for_results chosen_model results [] = Ok [] ->
        let elapsed := (t_end - t_start)%float in
        let st2 := counters_updated elapsed (timestamped t_start st) in
        truediv_int (total_latency st2) (request_count st2) = Ok avg ->
        predict t_start t_end image model st
          = (exported avg st2, Raise IndexError) /\
        request_count (exported avg st2) = request_count st + 1 /\
        total_latency (exported avg st2) = (total_latency st + elapsed)%float /\
        max_latency (exported avg st2)
          = (if (max_latency st <? elapsed)%float
             then elapsed else max_latency st) /\
        request_number (exported avg st2) = request_number st + 1 /\
        confidence_distribution (exported avg st2)
          = confidence_distribution st /\
        request_timestamps (exported avg st2)
          = request_timestamps st ++ [t_start])).
Proof.
  split.
  - apply predict_appends_timestamp.
  - intros h name Hres. split; [| split].
    + intros e He. rewrite predict_run. cbv zeta. now rewrite Hres, He.
    + intros img e Hi Hy. rewrite predict_run. cbv zeta.
      now rewrite Hres, Hi, Hy.
    + intros img results avg Hi Hy Hf elapsed st2 Havg.
      split.
      { rewrite predict_run. cbv zeta. rewrite Hres, Hi, Hy, Hf.
        rewrite record_metrics_run. cbv zeta.
        fold elapsed. fold st2. now rewrite Havg. }
      unfold st2, counters_updated, exported. cbv zeta.
      cbn [max_latency set_total_latency set_request_count timestamped
           set_request_timestamps].
      destruct (max_latency st <? elapsed)%float; repeat split; reflexivity.
Qed.

End Predict.

(** ** /metrics and the sliding window *)

Section Metrics.

Context {E : Externals}.

(** [get_metrics] always answers; this is its answer and the state it
    leaves. *)
Lemma get_metrics_run now st :
  get_metrics now st =
    let kept := pop_while_older (now - float_of_int 60)%float
                  (request_timestamps st) in
    (set_request_timestamps kept st,
     Ok {| request_rate_per_minute := Z.of_nat (List.length kept);
           avg_latency_ms :=
             py_round
               (if negb (request_count st =? 0)
                then (total_latency st / float_of_int (request_count st)
                      * float_of_int 1000)%float
                else 0%float) 2;
           max_latency_ms :=
             py_round (max_latency st * float_of_int 1000)%float 2;
           total_requests := request_count st |}).
Proof. reflexivity. Qed.

Lemma timestamps_extended_refl st : timestamps_extended st st.
Proof. exists []. now rewrite app_nil_r. Qed.

Lemma timestamps_extended_trans s1 s2 s3 :
  timestamps_extended s1 s2 -> timestamps_extended s2 s3 ->
  timestamps_extended s1 s3.
Proof.
  intros [a Ha] [b Hb]. exists (a ++ b). now rewrite Hb, Ha, app_assoc.
Qed.

Ltac keeps_timestamps :=
  keeps_with timestamps_extended_refl timestamps_extended_trans
    ltac:(first [ exists []; simpl; now rewrite app_nil_r
                | eexists; reflexivity ]).

Lemma predict_extends_timestamps t_start t_end image model :
  keeps timestamps_extended (predict t_start t_end image model).
Proof. unfold predict, record_metrics, choose_model. keeps_timestamps. Qed.

Lemma predict_visualization_extends_timestamps t_start image model :
  keeps timestamps_extended (predict_visualization t_start image model).
Proof. unfold predict_visualization, choose_model. keeps_timestamps. Qed.

(** No handler but [get_metrics] takes a timestamp away. *)
Lemma handle_extends_timestamps r st :
  (forall now, r <> GetMetrics now) -> timestamps_extended st (handle r st).
Proof.
  intro Hr. destruct r; cbn [handle].
  - apply timestamps_extended_refl.
  - apply timestamps_extended_refl.
  - apply timestamps_extended_refl.
  - unfold describe_model.
    destruct (negb (dict_mem models model)); apply timestamps_extended_refl.
  - unfold set_default_model.
    destruct (negb (dict_mem models model));
      [apply timestamps_extended_refl |].
    exists []. simpl. now rewrite app_nil_r.
  - apply predict_extends_timestamps.
  - apply predict_visualization_extends_timestamps.
  - now contradiction (Hr now).
Qed.

(** Appending a reading of a clock that has not stepped back keeps the
    order. *)
Lemma nondecreasing_app (ts : list float) (t : float) :
  nondecreasing ts ->
  Forall (fun u => (u <=? t)%float = true) ts ->
  nondecreasing (ts ++ [t]).
Proof.
  unfold nondecreasing.
  induction 1 as [| u ts Hs IH Hall]; intro Hle; simpl.
  - constructor; constructor.
  - inversion Hle as [| ? ? Hu Hrest]; subst.
    constructor; [now apply IH |].
    apply Forall_app. split; [exact Hall | now constructor].
Qed.

(** C3, as the code has it: the /metrics snapshot.  It always answers;
    [total_requests] is [request_count]; [max_latency_ms] is [max_latency *
    1000] and [avg_latency_ms] is [total_latency / request_count * 1000] for
    a positive count and [0.0] for a count of zero, both passed through
    [round(_, 2)]. [request_rate_per_minute] is the number of timestamps
    left by the loop, which takes away the leading entries older than 60
    seconds and stops at the first entry that is not; on timestamps in the
    order of the clock that is every entry older than 60 seconds. *)
Theorem get_metrics_snapshot now st :
  exists response,
    snd (get_metrics now st) = Ok response /\
    total_requests response = request_count st /\
    max_latency_ms response
      = py_round (max_latency st * float_of_int 1000)%float 2 /\
    (0 < request_count st ->
     avg_latency_ms response
       = py_round (total_latency st / float_of_int (request_count st)
                   * float_of_int 1000)%float 2) /\
    (request_count st = 0 -> avg_latency_ms response = py_round 0%float 2) /\
    request_rate_per_minute response
      = Z.of_nat (List.length (request_timestamps (fst (get_metrics now st)))) /\
    (exists stale,
       request_timestamps st
         = stale ++ request_timestamps (fst (get_metrics now st)) /\
       Forall (fun t => older_than_a_minute now t = true) stale /\
       (forall t rest,
          request_timestamps (fst (get_metrics now st)) = t :: rest ->
          older_than_a_minute now t = false)) /\
    (nondecreasing (request_timestamps st) ->
     request_timestamps (fst (get_metrics now st))
       = spec_prune now (request_timestamps st)).
Proof.
  rewrite get_metrics_run. cbv zeta. cbn [fst snd].
  eexists. split; [reflexivity |].
  cbn [total_requests max_latency_ms avg_latency_ms request_rate_per_minute
       request_timestamps set_request_timestamps].
  repeat split.
  - intro Hpos. destruct (request_count st =? 0) eqn:Hz; [lia | reflexivity].
  - intro Hzero. now rewrite Hzero.
  - apply pop_while_older_prefix.
  - intro Hs. unfold spec_prune, older_than_a_minute.
    now apply pop_while_older_filter.
Qed.

(** C6, as the code has it: the sliding window.  A request recorded more
    than 60 seconds before the read, on top of entries that are as old,
    leaves a rate of 0 and an empty list after the read.  Only the read
    prunes: every other handler leaves the timestamps it found, with at most
    its own start time appended.  After a read of timestamps that were in
    the order of the clock, none of the entries left is older than 60
    seconds; and the order of the clock is kept by the read and by a request
    whose start time is not before the recorded ones. *)
Theorem sliding_window_pruned_on_read now st :
  (forall t_start t_end image model,
     Forall (fun t => older_than_a_minute now t = true)
       (request_timestamps st) ->
     older_than_a_minute now t_start = true ->
     let st1 := fst (predict t_start t_end image model st) in
     In t_start (request_timestamps st1) /\
     request_timestamps (fst (get_metrics now st1)) = [] /\
     exists response,
       snd (get_metrics now st1) = Ok response /\
       request_rate_per_minute response = 0) /\
  (forall r, (forall n, r <> GetMetrics n) ->
             timestamps_extended st (handle r st)) /\
  (nondecreasing (request_timestamps st) ->
     Forall (fun t => older_than_a_minute now t = false)
       (request_timestamps (fst (get_metrics now st))) /\
     nondecreasing (request_timestamps (fst (get_metrics now st)))) /\
  (forall t_start t_end image model,
     nondecreasing (request_timestamps st) ->
     Forall (fun u => (u <=? t_start)%float = true) (request_timestamps st) ->
     nondecreasing
       (request_timestamps (fst (predict t_start t_end image model st)))).
Proof.
  split; [| split; [| split]].
  - intros t_start t_end image model Hold Ht st1.
    assert (Hts : request_timestamps st1 = request_timestamps st ++ [t_start])
      by apply predict_appends_timestamp.
    assert (Hnil : pop_while_older (now - float_of_int 60)%float
                     (request_timestamps st1) = []).
    { apply pop_while_older_all. rewrite Hts. apply Forall_app.
      split; [exact Hold | now constructor]. }
    split; [rewrite Hts; apply in_or_app; right; now left |].
    rewrite get_metrics_run. cbv zeta. cbn [fst snd].
    cbn [request_timestamps set_request_timestamps].
    split; [exact Hnil |].
    eexists. split; [reflexivity |].
    cbn [request_rate_per_minute]. now rewrite Hnil.
  - intros r Hr. now apply handle_extends_timestamps.
  - intro Hs. rewrite get_metrics_run. cbv zeta.
    cbn [fst request_timestamps set_request_timestamps].
    split; [| now apply pop_while_older_nondecreasing].
    rewrite (pop_while_older_filter _ Hs).
    apply Forall_forall. intros t Ht. apply filter_In in Ht.
    destruct Ht as [_ Ht]. unfold older_than_a_minute.
    now apply negb_true_iff in Ht.
  - intros t_start t_end image model Hs Hle.
    assert (Hts : request_timestamps (fst (predict t_start t_end image model st))
                  = request_timestamps st ++ [t_start])
      by apply predict_appends_timestamp.
    rewrite Hts. now apply nondecreasing_app.
Qed.

(** C8, as the code has it: /predict_visualization and the metrics.  Whether
    it answers or raises, it appends its start time to [request_timestamps]
    and writes nothing else: the three latency counters, the gauge, the
    Prometheus counter, the histogram and the default model are as before. *)
Theorem predict_visualization_appends_timestamp_only t_start image model st :
  let st' := fst (predict_visualization t_start image model st) in
  st' = timestamped t_start st /\
  request_timestamps st' = request_timestamps st ++ [t_start] /\
  request_count st' = request_count st /\
  total_latency st' = total_latency st /\
  max_latency st' = max_latency st /\
  time_gauge st' = time_gauge st /\
  request_number st' = request_number st /\
  confidence_distribution st' = confidence_distribution st /\
  default_model_name st' = default_model_name st.
Proof.
  intro st'.
  assert (Hst : st' = timestamped t_start st).
  { unfold st', predict_visualization.
    unfold bind at 1. unfold modify at 1. fold (timestamped t_start st).
    unfold bind at 1. rewrite choose_model_resolve.
    destruct (spec_resolve model _) as [[h name] |]; [| reflexivity].
    unfold bind, lift, ret.
    destruct (process_image image) as [img |]; [| reflexivity].
    destruct (yolo_predict h img 0.25%float 640) as [results |];
      [| reflexivity].
    destruct (transform_predict_to_df results (yolo_names h)) as [rows |];
      [| reflexivity].
    destruct (add_bboxs_on_img img rows); reflexivity. }
  rewrite Hst. repeat split; reflexivity.
Qed.

End Metrics.

(** ** The annotator *)

Section Annotate.

Context {E : Externals}.








End Annotate.

(** ** Threads *)

Section Interleaving.

Context {E : Externals}.

(** A thread that runs alone does what [predict] does. *)
Lemma run_alone_predict th st :
  th_pc th = Line172 ->
  run_alone 11 th st =
    (at_pc th (Returned (snd (predict (th_start th) (th_end th) (th_image th)
                                (th_model th) st))),
     fst (predict (th_start th) (th_end th) (th_image th) (th_model th) st)).
Proof.
  intro Hpc. rewrite predict_run. cbv zeta.
  unfold run_alone. unfold thread_step at 1. rewrite Hpc.
  fold (timestamped (th_start th) st).
  unfold thread_step at 1. cbn [th_pc at_pc].
  unfold lines_174_206. cbn [th_model th_image th_start th_end at_pc].
  rewrite choose_model_resolve. cbn [snd].
  change (default_model_name (timestamped (th_start th) st))
    with (default_model_name st).
  destruct (spec_resolve (th_model th) (default_model_name st))
    as [[h name] |]; [| reflexivity].
  cbn [result_bind].
  destruct (process_image (th_image th)) as [img | e]; [| reflexivity].
  cbn [result_bind].
  destruct (yolo_predict h img 0.25%float 640) as [results | e];
    [| reflexivity].
  cbn [result_bind].
  destruct (for_results h results []) as [preds | e]; [| reflexivity].
  cbn [result_bind].
  rewrite record_metrics_run. cbv zeta.
  unfold counters_updated, exported. cbv zeta.
  unfold thread_step.
  cbn [th_pc at_pc l_elapsed l_predictions l_chosen_model_name
       th_start th_end th_image th_model
       request_count total_latency max_latency
       set_request_count set_total_latency set_max_latency].
  destruct (max_latency (timestamped (th_start th) st)
            <? th_end th - th_start th)%float;
    cbn [th_pc at_pc l_elapsed l_predictions l_chosen_model_name
         th_start th_end th_image th_model
         request_count total_latency max_latency
         set_request_count set_total_latency set_max_latency];
    destruct (truediv_int _ _) as [avg | e];
    cbn [th_pc at_pc l_elapsed l_predictions l_chosen_model_name
         th_start th_end th_image th_model];
    try reflexivity;
    destruct (list_index preds 0%nat); reflexivity.
Qed.

Lemma step_nth_at (done : list Thread) th rest st :
  step_nth (List.length done) (done ++ th :: rest) st =
    (done ++ fst (thread_step th st) :: rest, snd (thread_step th st)).
Proof.
  induction done as [| d done IH]; cbn [List.length app step_nth].
  - now destruct (thread_step th st).
  - now rewrite IH.
Qed.

Lemma run_schedule_app s1 s2 (c : Pool) :
  run_schedule (s1 ++ s2) c = run_schedule s2 (run_schedule s1 c).
Proof. unfold run_schedule. apply fold_left_app. Qed.

Lemma run_schedule_cons i s (c : Pool) :
  run_schedule (i :: s) c = run_schedule s (step_nth i (fst c) (snd c)).
Proof. reflexivity. Qed.

(** Letting one thread step [n] times in a row is running it alone. *)
Lemma run_schedule_repeat n : forall (done : list Thread) th rest st,
  run_schedule (repeat (List.length done) n) (done ++ th :: rest, st) =
    (done ++ fst (run_alone n th st) :: rest, snd (run_alone n th st)).
Proof.
  induction n as [| n IH]; intros done th rest st.
  - reflexivity.
  - cbn [repeat]. rewrite run_schedule_cons. cbn [fst snd].
    rewrite step_nth_at, IH. cbn [run_alone].
    now destruct (thread_step th st).
Qed.

Lemma serve_cons r rs st : serve (r :: rs) st = serve rs (handle r st).
Proof. reflexivity. Qed.

(** Under [one_after_the_other] the pool does what the server does when it
    is handed the same requests in a row. *)
Lemma run_one_after_the_other ths : forall (done : list Thread) st,
  Forall (fun th => th_pc th = Line172) ths ->
  run_schedule
    (flat_map (fun i => repeat i 11%nat)
       (seq (List.length done) (List.length ths)))
    (done ++ ths, st) =
  (done ++ served ths st, serve (map request_of ths) st).
Proof.
  induction ths as [| th ths IH]; intros done st Hfresh.
  - reflexivity.
  - inversion Hfresh as [| ? ? Hth Hths]; subst.
    cbn [List.length seq flat_map]. rewrite run_schedule_app.
    rewrite run_schedule_repeat, (@run_alone_predict th st Hth). cbn [fst snd].
    fold (finished th st).
    replace (done ++ finished th st :: ths)
      with ((done ++ [finished th st]) ++ ths)
      by now rewrite <- app_assoc.
    replace (S (List.length done))
      with (List.length (done ++ [finished th st]))
      by (rewrite length_app; simpl; lia).
    rewrite (IH _ _ Hths). cbn [served map]. rewrite serve_cons.
    now rewrite <- app_assoc.
Qed.

(** A /predict that answers has counted itself once. *)
Lemma predict_answer_counted t_start t_end image model st response :
  snd (predict t_start t_end image model st) = Ok response ->
  request_count (fst (predict t_start t_end image model st))
    = request_count st + 1.
Proof.
  rewrite predict_run. cbv zeta.
  destruct (spec_resolve model (default_model_name st)) as [[h name] |];
    [| discriminate].
  destruct (process_image image) as [img |]; [| discriminate].
  destruct (yolo_predict h img 0.25%float 640) as [results |];
    [| discriminate].
  destruct (for_results h results []) as [preds |]; [| discriminate].
  rewrite record_metrics_run. cbv zeta.
  unfold counters_updated, exported. cbv zeta.
  destruct (_ <? _)%float; destruct (truediv_int _ _); try discriminate;
    destruct (list_index preds 0%nat); try discriminate; reflexivity.
Qed.

Lemma served_all_counted ths : forall st,
  forallb returned_ok (served ths st) = true ->
  request_count (serve (map request_of ths) st)
    = request_count st + Z.of_nat (List.length ths).
Proof.
  induction ths as [| th ths IH]; intros st Hok.
  - cbn. lia.
  - cbn [served forallb] in Hok. apply andb_true_iff in Hok.
    destruct Hok as [Hth Hrest].
    cbn [map]. rewrite serve_cons, (IH _ Hrest). cbn [request_of handle].
    unfold returned_ok, finished in Hth. cbn [th_pc at_pc] in Hth.
    destruct (snd (predict (th_start th) (th_end th) (th_image th)
                     (th_model th) st)) as [response |] eqn:Hr;
      [| discriminate].
    rewrite (@predict_answer_counted _ _ _ _ _ _ Hr).
    cbn [List.length]. lia.
Qed.

(** C2, as the code has it: /predict requests that do not overlap.  When
    each of N requests runs from its first line to its last before the next
    one starts, and each answers, [request_count] has grown by exactly N and
    a snapshot taken afterwards reports it as [total_requests].  (The code
    takes no lock: a schedule that interleaves the steps of two requests is
    not covered.) *)
Theorem predicts_one_after_the_other_all_counted ths st :
  Forall (fun th => th_pc th = Line172) ths ->
  forallb returned_ok
    (fst (run_schedule (one_after_the_other (List.length ths)) (ths, st)))
    = true ->
  let st' := snd (run_schedule (one_after_the_other (List.length ths))
                    (ths, st)) in
  st' = serve (map request_of ths) st /\
  request_count st' = request_count st + Z.of_nat (List.length ths) /\
  forall now, exists response,
    snd (get_metrics now st') = Ok response /\
    total_requests response
      = request_count st + Z.of_nat (List.length ths).
Proof.
  intros Hfresh. unfold one_after_the_other.
  pose proof (@run_one_after_the_other ths [] st Hfresh) as Hrun.
  cbn [List.length app] in Hrun. rewrite Hrun. cbn [fst snd].
  intros Hok. pose proof (@served_all_counted _ _ Hok) as Hcount.
  split; [reflexivity |]. split; [exact Hcount |].
  intro now. rewrite get_metrics_run. cbv zeta. cbn [snd].
  eexists. split; [reflexivity |]. exact Hcount.
Qed.

End Interleaving.

(** * The rest of the handlers *)

(** ** More on the order of floats *)

Section FloatOrderMore.

Lemma SFltb_irrefl (a : spec_float) : SFltb a a = false.
Proof.
  unfold SFltb. destruct a as [s | s | | s m e]; simpl; try reflexivity.
  - now destruct s.
  - rewrite Z.compare_refl.
    change (PosDef.Pos.compare_cont Eq m m) with (Pos.compare m m).
    rewrite Pos.compare_refl. now destruct s.
Qed.

Lemma SFltb_asym (a b : spec_float) : SFltb a b = true -> SFltb b a = false.
Proof.
  unfold SFltb.
  destruct a as [sa | sa | | sa ma ea], b as [sb | sb | | sb mb eb];
    simpl; try discriminate; try reflexivity;
    try (destruct sa); try (destruct sb); simpl;
    try discriminate; try reflexivity;
    change (PosDef.Pos.compare_cont Eq) with Pos.compare;
    rewrite (Z.compare_antisym ea eb), (Pos.compare_antisym ma mb);
    destruct (ea ?= eb); simpl; try discriminate; try reflexivity;
    destruct (ma ?= mb)%positive; simpl; try discriminate; reflexivity.
Qed.

(** No float is below itself. *)
Lemma float_ltb_irrefl (x : float) : (x <? x)%float = false.
Proof. rewrite ltb_spec. apply SFltb_irrefl. Qed.

(** Of two floats at most one is below the other. *)
Lemma float_ltb_asym (x y : float) :
  (x <? y)%float = true -> (y <? x)%float = false.
Proof. rewrite !ltb_spec. apply SFltb_asym. Qed.

End FloatOrderMore.


(** ** What /predict answers and records *)

Section PredictAnswer.

Context {E : Externals}.

(** The inner loop appends one prediction per box, in the order of the
    boxes. *)
Lemma for_boxes_ok chosen_model bs : forall acc preds,
  for_boxes chosen_model bs acc = Ok preds ->
  exists new,
    preds = acc ++ new /\ Forall2 (listed_as chosen_model) bs new.
Proof.
  induction bs as [| box bs IH]; intros acc preds H; cbn [for_boxes] in H.
  - injection H as <-. exists []. split; [now rewrite app_nil_r | constructor].
  - unfold prediction_of_box in H.
    destruct (xyxy box) as [[[x1 y1] x2] y2] eqn:Hx.
    destruct (yolo_names chosen_model (cls box)) as [name |] eqn:Hn;
      [| discriminate].
    cbn [result_bind] in H. destruct (IH _ _ H) as (new & -> & Hnew).
    eexists (_ :: new). split; [now rewrite <- app_assoc |].
    constructor; [| exact Hnew].
    unfold listed_as. cbn [label confidence bbox]. now rewrite Hx.
Qed.

(** The outer loop does so for the boxes of every result, in order. *)
Lemma for_results_ok chosen_model results : forall acc preds,
  for_results chosen_model results acc = Ok preds ->
  exists new,
    preds = acc ++ new /\
    Forall2 (listed_as chosen_model) (flat_map boxes results) new.
Proof.
  induction results as [| r results IH]; intros acc preds H;
    cbn [for_results] in H.
  - injection H as <-. exists []. split; [now rewrite app_nil_r | constructor].
  - destruct (for_boxes chosen_model (boxes r) acc) as [mid |] eqn:Hb;
      [| discriminate].
    cbn [result_bind] in H.
    destruct (@for_boxes_ok chosen_model _ _ _ Hb) as (new1 & -> & H1).
    destruct (IH _ _ H) as (new2 & -> & H2).
    exists (new1 ++ new2). split; [now rewrite app_assoc |].
    cbn [flat_map]. now apply Forall2_app.
Qed.

(** The inner loop stops at the first box whose class has no name. *)
Lemma for_boxes_raise chosen_model before box after : forall acc,
  Forall (fun b => yolo_names chosen_model (cls b) <> None) before ->
  yolo_names chosen_model (cls box) = None ->
  for_boxes chosen_model (before ++ box :: after) acc
    = Raise (KeyError (str_of_int (cls box))).
Proof.
  induction before as [| b before IH]; intros acc Hall Hbox.
  - cbn [app for_boxes]. unfold prediction_of_box.
    destruct (xyxy box) as [[[x1 y1] x2] y2]. now rewrite Hbox.
  - inversion Hall as [| ? ? Hb Hrest]; subst.
    cbn [app for_boxes]. unfold prediction_of_box.
    destruct (xyxy b) as [[[x1 y1] x2] y2].
    destruct (yolo_names chosen_model (cls b)); [| contradiction].
    cbn [result_bind]. now apply IH.
Qed.

(** Boxes whose classes all have names go through the inner loop. *)
Lemma for_boxes_named chosen_model bs : forall acc,
  Forall (fun b => yolo_names chosen_model (cls b) <> None) bs ->
  exists preds, for_boxes chosen_model bs acc = Ok preds.
Proof.
  induction bs as [| b bs IH]; intros acc Hall.
  - now exists acc.
  - inversion Hall as [| ? ? Hb Hrest]; subst.
    cbn [for_boxes]. unfold prediction_of_box.
    destruct (xyxy b) as [[[x1 y1] x2] y2].
    destruct (yolo_names chosen_model (cls b)); [| contradiction].
    cbn [result_bind]. now apply IH.
Qed.

(** Whether the class of a box has a name can be told. *)
Lemma named_dec chosen_model (b : Box) :
  {yolo_names chosen_model (cls b) <> None}
  + {~ yolo_names chosen_model (cls b) <> None}.
Proof.
  destruct (yolo_names chosen_model (cls b)).
  - left. discriminate.
  - right. intro H. now apply H.
Defined.

(** The loops stop at the first box, over all results, whose class has no
    name. *)
Lemma for_results_raise chosen_model results : forall before box after acc,
  flat_map boxes results = before ++ box :: after ->
  Forall (fun b => yolo_names chosen_model (cls b) <> None) before ->
  yolo_names chosen_model (cls box) = None ->
  for_results chosen_model results acc
    = Raise (KeyError (str_of_int (cls box))).
Proof.
  induction results as [| r results IH]; intros before box after acc Heq Hall Hbox.
  - destruct before; discriminate.
  - cbn [flat_map] in Heq. cbn [for_results].
    (* either the box is among those of [r], or they all have names *)
    destruct (Forall_dec (fun b => yolo_names chosen_model (cls b) <> None)
                (named_dec chosen_model) (boxes r)) as [Hnamed | Hnot].
    + destruct (@for_boxes_named chosen_model (boxes r) acc Hnamed) as [mid Hmid].
      rewrite Hmid. cbn [result_bind].
      (* [boxes r] is a prefix of [before] *)
      assert (Hsplit : exists before',
                 before = boxes r ++ before' /\
                 flat_map boxes results = before' ++ box :: after).
      { clear Hmid IH. revert before Heq Hall.
        induction (boxes r) as [| b bs IHb]; intros before Heq Hall.
        - now exists before.
        - inversion Hnamed as [| ? ? Hb Hbs]; subst.
          destruct before as [| b' before].
          + cbn [app] in Heq. injection Heq as -> _. contradiction.
          + cbn [app] in Heq. injection Heq as <- Heq.
            inversion Hall; subst.
            destruct (IHb Hbs before Heq) as (before' & -> & Hrest); auto.
            now exists before'. }
      destruct Hsplit as (before' & -> & Hrest).
      apply Forall_app in Hall. destruct Hall as [_ Hall'].
      now apply (IH before' box after).
    + (* the first box without a name is among those of [r] *)
      assert (Hsplit : exists after',
                 boxes r = before ++ box :: after').
      { clear IH. revert before Heq Hall.
        induction (boxes r) as [| b bs IHb]; intros before Heq Hall.
        - exfalso. apply Hnot. constructor.
        - destruct before as [| b' before].
          + cbn [app] in Heq. injection Heq as -> _. now exists bs.
          + cbn [app] in Heq. injection Heq as <- Heq.
            inversion Hall as [| ? ? Hb Hrest]; subst.
            destruct (IHb (fun H => Hnot (@Forall_cons _ _ b bs Hb H)) before Heq Hrest)
              as (after' & ->).
            now exists after'. }
      destruct Hsplit as (after' & Hr). rewrite Hr.
      now rewrite (@for_boxes_raise chosen_model before box after' acc Hall Hbox).
Qed.

(** The maximum after a /predict request that answers: the time the request
    took when that is above the old maximum, the old maximum otherwise. *)
Lemma predict_answer_max_step t_start t_end image model st st' response :
  predict t_start t_end image model st = (st', Ok response) ->
  ((max_latency st <? t_end - t_start)%float = true /\
   max_latency st' = (t_end - t_start)%float) \/
  ((max_latency st <? t_end - t_start)%float = false /\
   max_latency st' = max_latency st).
Proof.
  rewrite predict_run. cbv zeta. intro H.
  destruct (spec_resolve model (default_model_name st)) as [[h name] |];
    [| discriminate].
  destruct (process_image image) as [img |]; [| discriminate].
  destruct (yolo_predict h img 0.25%float 640) as [results |];
    [| discriminate].
  destruct (for_results h results []) as [preds |]; [| discriminate].
  rewrite record_metrics_run in H. cbv zeta in H.
  unfold counters_updated, exported in H. cbv zeta in H.
  cbn [max_latency total_latency request_count set_request_count
       set_total_latency set_max_latency timestamped
       set_request_timestamps] in H.
  destruct (max_latency st <? t_end - t_start)%float eqn:Hlt;
    destruct (truediv_int _ _); try discriminate H;
    destruct (list_index preds 0%nat); try discriminate H;
    injection H as <- _; [left | right]; split; reflexivity.
Qed.

(** X1: a /predict request that answers lists every box of every result the
    model returned, in order: one prediction per box, with the label of the
    box's class, its confidence rounded to two decimals and its four
    corners; and [model_used] names the model that was run. *)
Theorem predict_lists_every_box t_start t_end image model st st' response :
  predict t_start t_end image model st = (st', Ok response) ->
  exists chosen_model img results,
    dict_get models (model_used response) = Some chosen_model /\
    process_image image = Ok img /\
    yolo_predict chosen_model img 0.25%float 640 = Ok results /\
    Forall2 (listed_as chosen_model) (flat_map boxes results)
      (predictions response) /\
    List.length (predictions response)
      = List.length (flat_map boxes results).
Proof.
  rewrite predict_run. cbv zeta. unfold spec_resolve.
  intro H.
  assert (Hres : forall h n,
             match model with
             | Some name =>
                 match dict_get models name with
                 | Some handle => Some (handle, name)
                 | None =>
                     match dict_get models (default_model_name st) with
                     | Some handle => Some (handle, default_model_name st)
                     | None => None
                     end
                 end
             | None =>
                 match dict_get models (default_model_name st) with
                 | Some handle => Some (handle, default_model_name st)
                 | None => None
                 end
             end = Some (h, n) -> dict_get models n = Some h).
  { intros h n. destruct model as [name |].
    - destruct (dict_get models name) eqn:Hn.
      + now intros [= <- <-].
      + destruct (dict_get models (default_model_name st)) eqn:Hd;
          [now intros [= <- <-] | discriminate].
    - destruct (dict_get models (default_model_name st)) eqn:Hd;
        [now intros [= <- <-] | discriminate]. }
  destruct (match model with Some _ => _ | None => _ end)
    as [[h name] |] eqn:Hm; [| discriminate].
  specialize (Hres h name eq_refl).
  destruct (process_image image) as [img |]; [| discriminate].
  destruct (yolo_predict h img 0.25%float 640) as [results |] eqn:Hy;
    [| discriminate].
  destruct (for_results h results []) as [preds |] eqn:Hf; [| discriminate].
  destruct (record_metrics _ _ _) as [st2 [[] | e]]; [| discriminate].
  injection H as _ <-. cbn [model_used predictions].
  destruct (@for_results_ok h results [] preds Hf) as (new & -> & Hnew).
  exists h, img, results. repeat split; auto.
  cbn [app]. symmetry. exact (Forall2_length Hnew).
Qed.

(** X2: a box whose class the model has no name for.  When the choice of
    the model, the decoding and the inference succeed, /predict raises
    KeyError for the class of the first such box, over all results in order,
    and leaves nothing behind but its start time: no counter has moved. *)
Theorem predict_unnamed_class_raises t_start t_end image model st
    chosen_model chosen_model_name img results before box after :
  spec_resolve model (default_model_name st)
    = Some (chosen_model, chosen_model_name) ->
  process_image image = Ok img ->
  yolo_predict chosen_model img 0.25%float 640 = Ok results ->
  flat_map boxes results = before ++ box :: after ->
  Forall (fun b => yolo_names chosen_model (cls b) <> None) before ->
  yolo_names chosen_model (cls box) = None ->
  predict t_start t_end image model st
    = (timestamped t_start st, Raise (KeyError (str_of_int (cls box)))).
Proof.
  intros Hr Hi Hy Hflat Hall Hbox.
  rewrite predict_run. cbv zeta. rewrite Hr, Hi, Hy.
  now rewrite (@for_results_raise chosen_model results before box after []
                 Hflat Hall Hbox).
Qed.

(** X3: what a /predict request that answers has recorded.  Something was
    detected; [request_count] and the Prometheus counter are one higher,
    [total_latency] has grown by the time the request took, [max_latency] is
    that time if it is larger than the maximum so far, the gauge holds the
    new mean, the start time is on the list, and the histogram has observed
    one value: the rounded confidence of the first prediction, however many
    there are. *)
Theorem predict_answer_records t_start t_end image model st st' response :
  predict t_start t_end image model st = (st', Ok response) ->
  let elapsed := (t_end - t_start)%float in
  exists first rest,
    predictions response = first :: rest /\
    request_count st' = request_count st + 1 /\
    total_latency st' = (total_latency st + elapsed)%float /\
    max_latency st'
      = (if (max_latency st <? elapsed)%float
         then elapsed else max_latency st) /\
    time_gauge st'
      = (total_latency st' / float_of_int (request_count st'))%float /\
    request_number st' = request_number st + 1 /\
    confidence_distribution st'
      = hist_observe (confidence first) (confidence_distribution st) /\
    request_timestamps st' = request_timestamps st ++ [t_start] /\
    default_model_name st' = default_model_name st.
Proof.
  rewrite predict_run. cbv zeta. intro H.
  destruct (spec_resolve model (default_model_name st)) as [[h name] |];
    [| discriminate].
  destruct (process_image image) as [img |]; [| discriminate].
  destruct (yolo_predict h img 0.25%float 640) as [results |];
    [| discriminate].
  destruct (for_results h results []) as [preds |]; [| discriminate].
  rewrite record_metrics_run in H. cbv zeta in H.
  unfold counters_updated, exported, truediv_int in H. cbv zeta in H.
  cbn [max_latency total_latency request_count set_request_count
       set_total_latency set_max_latency timestamped
       set_request_timestamps] in H.
  destruct preds as [| first rest];
    destruct (max_latency st <? t_end - t_start)%float;
    cbn [max_latency total_latency request_count set_request_count
         set_total_latency set_max_latency] in H;
    destruct (request_count st + 1 =? 0); try discriminate H;
    cbn [list_index nth_error] in H; try discriminate H;
    injection H as <- <-; exists first, rest; repeat split.
Qed.

(** X4: after a /predict request that answers, [max_latency] is below
    neither the time the request took nor the maximum before it. *)
Theorem predict_answer_max_latency t_start t_end image model st st' response :
  predict t_start t_end image model st = (st', Ok response) ->
  (max_latency st' <? t_end - t_start)%float = false /\
  (max_latency st' <? max_latency st)%float = false.
Proof.
  intro H.
  destruct (@predict_answer_max_step t_start t_end image model st st'
              response H) as [[Hlt ->] | [Hge ->]].
  - split; [apply float_ltb_irrefl | now apply float_ltb_asym].
  - split; [exact Hge | apply float_ltb_irrefl].
Qed.

End PredictAnswer.

(** ** The metrics over the life of the server *)

Section MetricsLife.

Context {E : Externals}.

(** [predict_visualization] leaves its start time behind and nothing else. *)
Lemma predict_visualization_state t_start image model st :
  fst (predict_visualization t_start image model st) = timestamped t_start st.
Proof.
  unfold predict_visualization.
  unfold bind at 1. unfold modify at 1. fold (timestamped t_start st).
  unfold bind at 1. rewrite choose_model_resolve.
  destruct (spec_resolve model _) as [[h name] |]; [| reflexivity].
  unfold bind, lift, ret.
  destruct (process_image image) as [img |]; [| reflexivity].
  destruct (yolo_predict h img 0.25%float 640) as [results |];
    [| reflexivity].
  destruct (transform_predict_to_df results (yolo_names h)) as [rows |];
    [| reflexivity].
  destruct (add_bboxs_on_img img rows); reflexivity.
Qed.

(** [metrics_agree] looks at five variables only. *)
Lemma metrics_agree_same st st' :
  request_count st' = request_count st ->
  total_latency st' = total_latency st ->
  max_latency st' = max_latency st ->
  time_gauge st' = time_gauge st ->
  request_number st' = request_number st ->
  metrics_agree st -> metrics_agree st'.
Proof.
  unfold metrics_agree. intros -> -> -> -> ->. trivial.
Qed.

(** Lines 206-214 keep the counters, the gauge and the Prometheus counter
    in agreement, whether line 214 raises or not. *)
Lemma record_metrics_agree elapsed preds st :
  metrics_agree st -> metrics_agree (fst (record_metrics elapsed preds st)).
Proof.
  intros (Hpos & Hnum & _).
  rewrite record_metrics_run. cbv zeta.
  assert (Hcount : request_count (counters_updated elapsed st)
                   = request_count st + 1).
  { unfold counters_updated. cbv zeta. now destruct (_ <? _)%float. }
  assert (Hnumber : request_number (counters_updated elapsed st)
                    = request_number st).
  { unfold counters_updated. cbv zeta. now destruct (_ <? _)%float. }
  unfold truediv_int. rewrite Hcount.
  destruct (request_count st + 1 =? 0) eqn:Hz; [lia |].
  assert (Hagree : metrics_agree
                     (exported
                        (total_latency (counters_updated elapsed st)
                         / float_of_int (request_count st + 1))
                        (counters_updated elapsed st))).
  { unfold metrics_agree, exported.
    cbn [request_count request_number time_gauge total_latency
         set_request_number set_time_gauge].
    rewrite Hcount, Hnumber, Hz. repeat split; [lia | lia]. }
  destruct (list_index preds 0%nat); cbn [fst]; [| exact Hagree].
  revert Hagree. apply metrics_agree_same; reflexivity.
Qed.

Lemma handle_metrics_agree r st :
  metrics_agree st -> metrics_agree (handle r st).
Proof.
  intro H. destruct r; cbn [handle]; try exact H.
  - unfold describe_model. now destruct (negb (dict_mem models model)).
  - unfold set_default_model.
    destruct (negb (dict_mem models model)); [exact H |].
    revert H. apply metrics_agree_same; reflexivity.
  - rewrite predict_run. cbv zeta.
    assert (Ht : metrics_agree (timestamped t_start st))
      by (revert H; apply metrics_agree_same; reflexivity).
    destruct (spec_resolve model (default_model_name st)) as [[h name] |];
      [| exact Ht].
    destruct (process_image image) as [img |]; [| exact Ht].
    destruct (yolo_predict h img 0.25%float 640) as [results |];
      [| exact Ht].
    destruct (for_results h results []) as [preds |]; [| exact Ht].
    pose proof (record_metrics_agree (t_end - t_start)%float preds Ht) as Hr.
    now destruct (record_metrics _ _ _) as [st2 [[] | e]].
  - rewrite predict_visualization_state.
    revert H. apply metrics_agree_same; reflexivity.
Qed.

(** X5: in every state the server reaches, served one request at a time,
    the Prometheus counter equals [request_count], which is never negative,
    and once a request has been counted the gauge holds
    [total_latency / request_count].  So /metrics reports the Prometheus
    counter as [total_requests] and, for a positive count, the gauge times
    1000, rounded, as [avg_latency_ms]. *)
Theorem metrics_agree_when_reachable st :
  reachable st ->
  metrics_agree st /\
  forall now response,
    snd (get_metrics now st) = Ok response ->
    total_requests response = request_number st /\
    (0 < request_count st ->
     avg_latency_ms response
       = py_round (time_gauge st * float_of_int 1000)%float 2).
Proof.
  intro Hr.
  assert (Hagree : metrics_agree st).
  { induction Hr as [| st r _ IH].
    - unfold metrics_agree. cbn. repeat split; lia.
    - now apply handle_metrics_agree. }
  split; [exact Hagree |].
  intros now response. rewrite get_metrics_run. cbv zeta. cbn [snd].
  intros [= <-]. cbn [total_requests avg_latency_ms].
  destruct Hagree as (_ & Hnum & Hgauge).
  split; [now rewrite Hnum |].
  intro Hpos. destruct (request_count st =? 0) eqn:Hz; [lia |].
  cbn [negb]. now rewrite Hgauge.
Qed.

(** A handler takes timestamps from the front only and adds its own start
    time at the back. *)
Lemma handle_timestamps r st :
  exists dropped,
    dropped ++ request_timestamps (handle r st)
      = request_timestamps st ++ start_times [r].
Proof.
  destruct r; cbn [handle start_times flat_map app];
    try (exists []; cbn [app]; now rewrite app_nil_r).
  - exists []. unfold describe_model.
    destruct (negb (dict_mem models model)); cbn; now rewrite app_nil_r.
  - exists []. unfold set_default_model.
    destruct (negb (dict_mem models model)); cbn; now rewrite app_nil_r.
  - exists []. cbn [app]. apply predict_appends_timestamp.
  - exists []. cbn [app]. now rewrite predict_visualization_state.
  - rewrite get_metrics_run. cbv zeta.
    cbn [fst request_timestamps set_request_timestamps].
    destruct (pop_while_older_prefix (now - float_of_int 60)%float
                (request_timestamps st)) as (stale & Heq & _).
    exists stale. now rewrite app_nil_r, <- Heq.
Qed.

Lemma start_times_app rs1 rs2 :
  start_times (rs1 ++ rs2) = start_times rs1 ++ start_times rs2.
Proof. unfold start_times. apply flat_map_app. Qed.

Lemma serve_timestamps rs : forall st,
  exists dropped,
    dropped ++ request_timestamps (serve rs st)
      = request_timestamps st ++ start_times rs.
Proof.
  induction rs as [| r rs IH]; intro st.
  - exists []. cbn. now rewrite app_nil_r.
  - rewrite serve_cons.
    destruct (handle_timestamps r st) as (d1 & H1).
    destruct (IH (handle r st)) as (d2 & H2).
    exists (d1 ++ d2).
    change (r :: rs) with ([r] ++ rs).
    rewrite start_times_app, app_assoc, <- H1, <- !app_assoc.
    now rewrite H2.
Qed.

(** The end of a list in order is in order. *)
Lemma nondecreasing_suffix (dropped ts : list float) :
  nondecreasing (dropped ++ ts) -> nondecreasing ts.
Proof.
  unfold nondecreasing. induction dropped as [| d dropped IH]; intro H.
  - exact H.
  - inversion H; subst. now apply IH.
Qed.

(** X6: the timestamps on the list are start times of the requests served,
    in the order of the requests: whatever the requests and the readings of
    the clock, the list is what is left of the list before with the start
    times of the /predict and /predict_visualization requests appended,
    after some entries have been taken from its front.  No entry is
    reordered, repeated or taken from the middle. *)
Theorem timestamps_follow_the_requests rs st :
  exists dropped,
    dropped ++ request_timestamps (serve rs st)
      = request_timestamps st ++ start_times rs.
Proof. apply serve_timestamps. Qed.

(** X7: when the start times of the requests served since start-up are in
    the order of the clock, the timestamps are in order in the state
    reached, and a read then removes every entry older than 60 seconds:
    the rate is the number of recorded start times within the last 60
    seconds. *)
Theorem rate_exact_in_clock_order rs now :
  nondecreasing (start_times rs) ->
  let st := serve rs initial_state in
  nondecreasing (request_timestamps st) /\
  request_timestamps (fst (get_metrics now st))
    = spec_prune now (request_timestamps st) /\
  exists response,
    snd (get_metrics now st) = Ok response /\
    request_rate_per_minute response
      = Z.of_nat (List.length (spec_prune now (request_timestamps st))).
Proof.
  intros Hs st.
  assert (Hord : nondecreasing (request_timestamps st)).
  { destruct (serve_timestamps rs initial_state) as (dropped & Hd).
    cbn [request_timestamps initial_state app] in Hd.
    apply (nondecreasing_suffix dropped). unfold st. now rewrite Hd. }
  split; [exact Hord |].
  rewrite get_metrics_run. cbv zeta.
  cbn [fst snd request_timestamps set_request_timestamps].
  unfold spec_prune, older_than_a_minute.
  rewrite (pop_while_older_filter _ Hord).
  split; [reflexivity |]. eexists. split; reflexivity.
Qed.

(** The loop has nothing to remove from what it left. *)
Lemma pop_while_older_idempotent (c : float) (ts : list float) :
  pop_while_older c (pop_while_older c ts) = pop_while_older c ts.
Proof.
  induction ts as [| t ts IH]; [reflexivity |].
  cbn [pop_while_older]. destruct (t <? c)%float eqn:Ht; [exact IH |].
  cbn [pop_while_older]. now rewrite Ht.
Qed.

(** X8: reading /metrics twice at the same instant.  The second read gives
    the answer of the first and changes nothing; and a read never moves the
    counters, the gauge, the histogram or the default model. *)
Theorem get_metrics_twice now st :
  let st1 := fst (get_metrics now st) in
  get_metrics now st1 = (st1, snd (get_metrics now st)) /\
  request_count st1 = request_count st /\
  total_latency st1 = total_latency st /\
  max_latency st1 = max_latency st /\
  time_gauge st1 = time_gauge st /\
  request_number st1 = request_number st /\
  confidence_distribution st1 = confidence_distribution st /\
  default_model_name st1 = default_model_name st.
Proof.
  cbv zeta. rewrite !get_metrics_run. cbv zeta.
  cbn [fst snd request_timestamps set_request_timestamps request_count
       total_latency max_latency].
  rewrite pop_while_older_idempotent.
  repeat split.
Qed.

End MetricsLife.

(** ** The management endpoints *)

Section Management.

Context {E : Externals}.

(** [k in d] is membership in [d.keys()]. *)
Lemma dict_mem_keys {V} (d : dict V) (k : string) :
  dict_mem d k = true <-> In k (dict_keys d).
Proof.
  unfold dict_mem, dict_keys. induction d as [| [k' v] d IH]; cbn.
  - split; [discriminate | contradiction].
  - destruct (String.eqb k k') eqn:Hk.
    + apply String.eqb_eq in Hk. subst. split; auto.
    + apply String.eqb_neq in Hk. rewrite IH.
      split; [auto | intros [-> | H]; [contradiction | exact H]].
Qed.

(** Every registered model has an entry in [dummy_configs]. *)
Lemma registered_has_config model :
  dict_mem models model = true ->
  exists config,
    dict_get dummy_configs model = Some config /\
    input_size config = [640; 640] /\ batch_size config = 16.
Proof.
  unfold dict_mem, models, dummy_configs. cbn [dict_get].
  destruct (String.eqb model "model_0"); [eexists; repeat split |].
  destruct (String.eqb model "model_1"); [eexists; repeat split |].
  discriminate.
Qed.

(** X9: /management/models/{model}/describe and /management/models.  The
    describe endpoint never writes a variable.  For each name that the list
    endpoint lists it answers with the name, the registration date and a
    configuration from [dummy_configs], never the empty fallback; for every
    other name it answers 404. *)
Theorem describe_model_lists_agree model st :
  fst (describe_model model st) = st /\
  fst (list_models st) = st /\
  forall names,
    snd (list_models st) = Ok names ->
    (In model names ->
     exists config,
       snd (describe_model model st)
         = Ok (DescribeDone model (Some config) "2025-03-26") /\
       input_size config = [640; 640] /\ batch_size config = 16) /\
    (~ In model names ->
     snd (describe_model model st)
       = Ok (DescribeNotFound 404 "Model not found.")).
Proof.
  split; [unfold describe_model; now destruct (negb _) |].
  split; [reflexivity |].
  intros names [= <-]. split.
  - intro Hin.
    assert (Hm : dict_mem models model = true)
      by (apply dict_mem_keys; exact Hin).
    destruct (@registered_has_config model Hm)
      as (config & Hc & Hsize & Hbatch).
    exists config. unfold describe_model. rewrite Hm, Hc. auto.
  - intro Hnot. unfold describe_model.
    destruct (dict_mem models model) eqn:Hm; [| reflexivity].
    exfalso. apply Hnot. apply (proj1 (dict_mem_keys models model)).
    exact Hm.
Qed.

(** X10: changes of the default model compose.  A registered name replaces
    whatever an earlier call had set; a name that is not registered leaves
    what the earlier call had set; and no call touches the counters, the
    timestamps, the gauge, the Prometheus counter or the histogram. *)
Theorem set_default_model_composes a b st :
  (dict_mem models b = true ->
   fst (set_default_model b (fst (set_default_model a st)))
     = fst (set_default_model b st) /\
   default_model_name (fst (set_default_model b (fst (set_default_model a st))))
     = b) /\
  (dict_mem models b = false ->
   fst (set_default_model b (fst (set_default_model a st)))
     = fst (set_default_model a st)) /\
  (let st' := fst (set_default_model a st) in
   request_count st' = request_count st /\
   total_latency st' = total_latency st /\
   max_latency st' = max_latency st /\
   request_timestamps st' = request_timestamps st /\
   time_gauge st' = time_gauge st /\
   request_number st' = request_number st /\
   confidence_distribution st' = confidence_distribution st).
Proof.
  unfold set_default_model. split; [| split].
  - intro Hb. rewrite Hb. cbn [negb].
    destruct (negb (dict_mem models a)); split; reflexivity.
  - intro Hb. now rewrite Hb.
  - cbv zeta. destruct (negb (dict_mem models a)); repeat split.
Qed.

End Management.

(** ** What /predict_visualization answers *)

Section Visualization.

Context {E : Externals}.





End Visualization.

(** ** Threads and the timestamps *)

Section ThreadTimestamps.

Context {E : Externals}.

(** A step appends a timestamp exactly when it is the thread's first. *)
Lemma thread_step_timestamps th st :
  (List.length (request_timestamps (snd (thread_step th st)))
   + started_bit th
   = List.length (request_timestamps st)
     + started_bit (fst (thread_step th st)))%nat.
Proof.
  unfold thread_step, started_bit, started.
  destruct (th_pc th) eqn:Hpc;
    try (cbn [fst snd th_pc at_pc request_timestamps set_request_count
              set_total_latency set_max_latency set_request_number];
         lia).
  - (* line 172 *)
    cbn [fst snd th_pc at_pc request_timestamps set_request_timestamps].
    rewrite length_app. cbn [List.length]. lia.
  - (* lines 174-206 *)
    destruct (lines_174_206 th st); cbn [fst snd th_pc at_pc]; lia.
  - (* line 209 *)
    destruct (_ <? _)%float; cbn [fst snd th_pc at_pc]; lia.
  - (* line 212 *)
    destruct (truediv_int _ _);
      cbn [fst snd th_pc at_pc request_timestamps set_time_gauge]; lia.
  - (* line 214 *)
    destruct (list_index _ _);
      cbn [fst snd th_pc at_pc request_timestamps
           set_confidence_distribution]; lia.
  - (* returned *)
    cbn [fst snd]. rewrite Hpc. lia.
Qed.

Lemma started_count_cons th ths :
  started_count (th :: ths) = (started_bit th + started_count ths)%nat.
Proof.
  unfold started_count, started_bit. cbn [filter].
  now destruct (started th).
Qed.

Lemma step_nth_timestamps ths : forall i st,
  (List.length (request_timestamps (snd (step_nth i ths st)))
   + started_count ths
   = List.length (request_timestamps st)
     + started_count (fst (step_nth i ths st)))%nat /\
  List.length (fst (step_nth i ths st)) = List.length ths.
Proof.
  induction ths as [| th ths IH]; intros i st.
  - destruct i; cbn; lia.
  - destruct i as [| i]; cbn [step_nth].
    + pose proof (thread_step_timestamps th st) as H.
      destruct (thread_step th st) as [th' st']. cbn [fst snd] in *.
      rewrite !started_count_cons. cbn [List.length]. lia.
    + specialize (IH i st).
      destruct (step_nth i ths st) as [ths' st']. cbn [fst snd] in *.
      rewrite !started_count_cons. cbn [List.length]. lia.
Qed.

Lemma run_schedule_timestamps schedule : forall ths st,
  (List.length (request_timestamps (snd (run_schedule schedule (ths, st))))
   + started_count ths
   = List.length (request_timestamps st)
     + started_count (fst (run_schedule schedule (ths, st))))%nat /\
  List.length (fst (run_schedule schedule (ths, st))) = List.length ths.
Proof.
  induction schedule as [| i schedule IH]; intros ths st.
  - split; reflexivity.
  - rewrite run_schedule_cons. cbn [fst snd].
    pose proof (step_nth_timestamps ths i st) as [H1 H2].
    destruct (step_nth i ths st) as [ths' st']. cbn [fst snd] in *.
    destruct (IH ths' st') as [H3 H4]. lia.
Qed.

(** X13: however the steps of the threads serving /predict are interleaved,
    no append to [request_timestamps] is lost: from a pool in which no
    thread has started, the list has grown by exactly the number of threads
    that have run line 172, and no thread has joined or left the pool. *)
Theorem no_timestamp_lost schedule ths st :
  started_count ths = 0%nat ->
  let c := run_schedule schedule (ths, st) in
  List.length (request_timestamps (snd c))
    = (List.length (request_timestamps st) + started_count (fst c))%nat /\
  List.length (fst c) = List.length ths.
Proof.
  intros H0 c. destruct (run_schedule_timestamps schedule ths st) as [H1 H2].
  fold c in H1, H2. split; [lia | exact H2].
Qed.

End ThreadTimestamps.

(** * Runs on the stand-ins *)

#[local] Existing Instance Stub.externals.

(** A picture with nothing in it makes /predict raise IndexError. *)
Lemma predict_zero_detections_raises_run :
  snd (predict 100 101 Stub.empty_picture None initial_state)
    = Raise IndexError /\
  request_count (fst (predict 100 101 Stub.empty_picture None initial_state))
    = request_count initial_state + 1.
Proof.
  apply (@predict_zero_detections_raises Stub.externals 100 101
           Stub.empty_picture None initial_state Stub.Best "model_0"
           Stub.empty_picture [{| boxes := [] |}]).
  - discriminate.
  - reflexivity.
  - reflexivity.
  - reflexivity.
  - reflexivity.
Defined.

(** Two requests, the first over before the second starts: both counted. *)
Lemma predicts_one_after_the_other_run :
  let ths := [spawn 100 101 Stub.person_picture None;
              spawn 200 202 Stub.car_picture (Some "model_1"%string)] in
  let st' := snd (run_schedule (one_after_the_other 2) (ths, initial_state)) in
  st' = serve (map request_of ths) initial_state /\
  request_count st' = 0 + 2 /\
  forall now, exists response,
    snd (get_metrics now st') = Ok response /\
    total_requests response = 0 + 2.
Proof.
  apply (@predicts_one_after_the_other_all_counted Stub.externals
           [spawn 100 101 Stub.person_picture None;
            spawn 200 202 Stub.car_picture (Some "model_1"%string)]
           initial_state).
  - repeat constructor.
  - vm_compute. reflexivity.
Defined.

(** C2, counterexample: two /predict requests in flight at once.  Both read
    [request_count] (0) before either writes it back; both answer, and the
    count ends at 1: one of the two updates is lost, and the snapshot reports
    [total_requests] 1 for 2 requests. *)
Lemma concurrent_predicts_lose_an_update :
  let c := run_schedule Stub.both_read_then_write
             (Stub.two_requests, initial_state) in
  List.length Stub.two_requests = 2%nat /\
  forallb returned_ok (fst c) = true /\
  request_count (snd c) = 1 /\
  exists response,
    snd (get_metrics 102 (snd c)) = Ok response /\
    total_requests response = 1.
Proof.
  cbv zeta. split; [reflexivity |]. split; [vm_compute; reflexivity |].
  split; [vm_compute; reflexivity |].
  eexists. split; [reflexivity |]. vm_compute. reflexivity.
Qed.

(** C3, counterexample: a state the server reaches when the clock is set
    back between two requests.  At 120 the entry 30 is older than 60 seconds,
    yet it is behind the entry 100, which is not; the loop stops at once and
    the rate is 2, while one entry only is within the last 60 seconds. *)
Lemma get_metrics_counts_an_old_entry :
  let st := serve Stub.clock_set_back initial_state in
  reachable st /\
  request_timestamps st = [100; 30]%float /\
  older_than_a_minute 120 30 = true /\
  (exists response,
     snd (get_metrics 120 st) = Ok response /\
     request_rate_per_minute response = 2) /\
  spec_prune 120 (request_timestamps st) = [100%float].
Proof.
  cbv zeta. split.
  - unfold Stub.clock_set_back, serve. cbn [fold_left].
    apply reachable_step. apply reachable_step. apply reachable_start.
  - split; [vm_compute; reflexivity |].
    split; [vm_compute; reflexivity |].
    split; [| vm_compute; reflexivity].
    eexists. split; [reflexivity |]. vm_compute. reflexivity.
Qed.

(** The model named in the request is the one used. *)
Lemma predict_uses_chosen_model_run :
  exists chosen_model chosen_model_name,
    choose_model (Some "model_1"%string) initial_state
      = (initial_state, Ok (chosen_model, chosen_model_name)) /\
    dict_get models chosen_model_name = Some chosen_model /\
    (forall name, Some "model_1"%string = Some name ->
                  dict_mem models name = true ->
                  chosen_model_name = name) /\
    (Some "model_1"%string = None \/
     (exists name, Some "model_1"%string = Some name /\
                   dict_mem models name = false) ->
     chosen_model_name = default_model_name initial_state) /\
    (forall st' response,
       predict 100 101 Stub.person_picture (Some "model_1"%string)
         initial_state = (st', Ok response) ->
       model_used response = chosen_model_name /\
       exists img results,
         process_image Stub.person_picture = Ok img /\
         yolo_predict chosen_model img 0.25%float 640 = Ok results /\
         for_results chosen_model results [] = Ok (predictions response)) /\
    (forall img results p ps,
       process_image Stub.person_picture = Ok img ->
       yolo_predict chosen_model img 0.25%float 640 = Ok results ->
       for_results chosen_model results [] = Ok (p :: ps) ->
       request_count initial_state <> -1 ->
       snd (predict 100 101 Stub.person_picture (Some "model_1"%string)
              initial_state)
         = Ok {| predictions := p :: ps; model_used := chosen_model_name |}).
Proof.
  apply (@predict_uses_chosen_model Stub.externals 100 101
           Stub.person_picture (Some "model_1"%string) initial_state).
  reflexivity.
Defined.

(** C6, counterexample: after a read, an entry older than 60 seconds is
    still in the list.  Once with the clock set back between two requests;
    once with a clock that only moves forward and two requests in flight, the
    later one appending its start time first. *)
Lemma old_entry_survives_a_read :
  (let st := serve Stub.clock_set_back initial_state in
   let left := request_timestamps (fst (get_metrics 120 st)) in
   left = [100; 30]%float /\ older_than_a_minute 120 30 = true) /\
  (let c := run_schedule Stub.second_appends_first
              (Stub.two_requests, initial_state) in
   let left := request_timestamps (fst (get_metrics 160.25 (snd c))) in
   forallb returned_ok (fst c) = true /\
   left = [100.5; 100]%float /\ older_than_a_minute 160.25 100 = true).
Proof.
  cbv zeta. repeat split; vm_compute; reflexivity.
Qed.



(** C8, counterexample: one /predict_visualization from the initial state.
    The timestamps go from none to one, and the rate read one second later
    from 0 to 1. *)
Lemma predict_visualization_changes_the_rate :
  let st' := fst (predict_visualization 100 Stub.car_picture None
                    initial_state) in
  request_timestamps initial_state = [] /\
  request_timestamps st' = [100%float] /\
  (exists response,
     snd (get_metrics 101 initial_state) = Ok response /\
     request_rate_per_minute response = 0) /\
  (exists response,
     snd (get_metrics 101 st') = Ok response /\
     request_rate_per_minute response = 1).
Proof.
  cbv zeta. split; [reflexivity |]. split; [vm_compute; reflexivity |].
  split; eexists; (split; [reflexivity | vm_compute; reflexivity]).
Qed.

(** The snapshot after the two requests of [clock_set_back], read at 120. *)
Lemma get_metrics_snapshot_run :
  let st := serve Stub.clock_set_back initial_state in
  exists response,
    snd (get_metrics 120 st) = Ok response /\
    total_requests response = 2 /\
    avg_latency_ms response = 1250%float /\
    max_latency_ms response = 1500%float /\
    request_rate_per_minute response = 2.
Proof.
  cbv zeta.
  destruct (@get_metrics_snapshot Stub.externals 120
              (serve Stub.clock_set_back initial_state))
    as (response & Hr & Htotal & Hmax & Havg & _ & Hrate & _).
  exists response. split; [exact Hr |].
  split; [rewrite Htotal; reflexivity |].
  split; [rewrite Havg by (vm_compute; reflexivity); vm_compute; reflexivity |].
  split; [rewrite Hmax; vm_compute; reflexivity |].
  rewrite Hrate. vm_compute. reflexivity.
Defined.

(** An unknown name is refused; a known one becomes the default and is the
    model of the next request that names none. *)
Lemma set_default_model_run :
  set_default_model "yolo"%string initial_state
    = (initial_state, Ok (SetDefaultNotFound 404 "Model not found.")) /\
  set_default_model "model_1"%string initial_state
    = (set_default_model_name "model_1" initial_state,
       Ok (SetDefaultDone true "model_1")) /\
  choose_model None (set_default_model_name "model_1" initial_state)
    = (set_default_model_name "model_1" initial_state,
       Ok (Stub.V1, "model_1"%string)).
Proof.
  split.
  - apply (@set_default_model_spec Stub.externals "yolo"%string initial_state).
    reflexivity.
  - destruct (proj2 (@set_default_model_spec Stub.externals "model_1"%string
                       initial_state) Stub.V1 eq_refl)
      as (Hanswer & _ & Hstate & Hchoice).
    rewrite Hstate in Hanswer, Hchoice. split; assumption.
Defined.

(** A request recorded at 30 is gone from a read at 120. *)
Lemma sliding_window_run :
  let st1 := fst (predict 30 31.5 Stub.person_picture None initial_state) in
  In 30%float (request_timestamps st1) /\
  request_timestamps (fst (get_metrics 120 st1)) = [] /\
  exists response,
    snd (get_metrics 120 st1) = Ok response /\
    request_rate_per_minute response = 0.
Proof.
  apply (proj1 (@sliding_window_pruned_on_read Stub.externals 120
                  initial_state)).
  - constructor.
  - vm_compute. reflexivity.
Defined.

(** One /predict_visualization from the initial state. *)
Lemma predict_visualization_run :
  fst (predict_visualization 100 Stub.car_picture None initial_state)
    = timestamped 100 initial_state.
Proof.
  apply (@predict_visualization_appends_timestamp_only Stub.externals 100
           Stub.car_picture None initial_state).
Defined.

(** The default is registered after a change of default and a request. *)
Lemma default_model_name_registered_run :
  default_is_registered
    (serve [GetSetDefault "model_1"; GetSetDefault "yolo";
            PostPredict 100 101 Stub.empty_picture None] initial_state).
Proof.
  apply (@default_model_name_always_registered Stub.externals).
  unfold serve. cbn [fold_left].
  repeat apply reachable_step. apply reachable_start.
Defined.

(** Bytes that do not decode leave the start time behind and nothing else. *)
Lemma predict_metrics_survive_failure_run :
  predict 100 101 [] None initial_state
    = (timestamped 100 initial_state, Raise (ExternalError "cv2.error")).
Proof.
  apply (proj1 (proj2 (@predict_metrics_survive_failure Stub.externals
                         100 101 [] None initial_state)
                  Stub.Best "model_0"%string eq_refl)).
  reflexivity.
Defined.

(** ** Runs of the rest of the handlers *)

(** The picture of a person: one box, one prediction. *)
Lemma predict_lists_every_box_run :
  exists chosen_model img results,
    dict_get models (model_used Stub.person_response) = Some chosen_model /\
    process_image Stub.person_picture = Ok img /\
    yolo_predict chosen_model img 0.25%float 640 = Ok results /\
    Forall2 (listed_as chosen_model) (flat_map boxes results)
      (predictions Stub.person_response) /\
    List.length (predictions Stub.person_response)
      = List.length (flat_map boxes results).
Proof.
  apply (@predict_lists_every_box Stub.externals 100 101 Stub.person_picture
           None initial_state
           (fst (predict 100 101 Stub.person_picture None initial_state))
           Stub.person_response).
  reflexivity.
Defined.

(** With models that name no class, the person's class 0 raises KeyError. *)
Lemma predict_unnamed_class_raises_run :
  predict (E := Stub.externals_without_names) 100 101 Stub.person_picture
    None initial_state
    = (timestamped 100 initial_state, Raise (KeyError (str_of_int 0))).
Proof.
  apply (@predict_unnamed_class_raises Stub.externals_without_names 100 101
           Stub.person_picture None initial_state Stub.Best "model_0"
           Stub.person_picture [{| boxes := Stub.detect Byte.x01 |}] []
           {| xyxy := (16, 8, 64, 128)%float; conf := 0.875%float; cls := 0 |}
           []).
  - reflexivity.
  - reflexivity.
  - reflexivity.
  - reflexivity.
  - constructor.
  - reflexivity.
Defined.

(** What the first answered /predict leaves in the state. *)
Lemma predict_answer_records_run :
  let st' := fst (predict 100 101 Stub.person_picture None initial_state) in
  exists first rest,
    predictions Stub.person_response = first :: rest /\
    request_count st' = 0 + 1 /\
    total_latency st' = (0 + (101 - 100))%float /\
    max_latency st'
      = (if (0 <? 101 - 100)%float then (101 - 100)%float else 0%float) /\
    time_gauge st'
      = (total_latency st' / float_of_int (request_count st'))%float /\
    request_number st' = 0 + 1 /\
    confidence_distribution st' = hist_observe (confidence first) hist_init /\
    request_timestamps st' = [] ++ [100%float] /\
    default_model_name st' = "model_0"%string.
Proof.
  apply (@predict_answer_records Stub.externals 100 101 Stub.person_picture
           None initial_state
           (fst (predict 100 101 Stub.person_picture None initial_state))
           Stub.person_response).
  reflexivity.
Defined.

(** The maximum after the first answered /predict. *)
Lemma predict_answer_max_latency_run :
  let st' := fst (predict 100 101 Stub.person_picture None initial_state) in
  (max_latency st' <? 101 - 100)%float = false /\
  (max_latency st' <? max_latency initial_state)%float = false.
Proof.
  apply (@predict_answer_max_latency Stub.externals 100 101
           Stub.person_picture None initial_state
           (fst (predict 100 101 Stub.person_picture None initial_state))
           Stub.person_response).
  reflexivity.
Defined.

(** The state after the two requests of [clock_set_back]. *)
Lemma metrics_agree_when_reachable_run :
  let st := serve Stub.clock_set_back initial_state in
  metrics_agree st /\
  forall now response,
    snd (get_metrics now st) = Ok response ->
    total_requests response = request_number st /\
    (0 < request_count st ->
     avg_latency_ms response
       = py_round (time_gauge st * float_of_int 1000)%float 2).
Proof.
  apply (@metrics_agree_when_reachable Stub.externals
           (serve Stub.clock_set_back initial_state)).
  unfold Stub.clock_set_back, serve. cbn [fold_left].
  repeat apply reachable_step. apply reachable_start.
Defined.

(** Start times 100 and 150 with a read in between. *)
Lemma rate_exact_in_clock_order_run :
  let st := serve Stub.quiet_minute initial_state in
  nondecreasing (request_timestamps st) /\
  request_timestamps (fst (get_metrics 165 st))
    = spec_prune 165 (request_timestamps st) /\
  exists response,
    snd (get_metrics 165 st) = Ok response /\
    request_rate_per_minute response
      = Z.of_nat (List.length (spec_prune 165 (request_timestamps st))).
Proof.
  apply (@rate_exact_in_clock_order Stub.externals Stub.quiet_minute 165).
  repeat constructor.
Defined.



(** Two threads interleaved: two timestamps. *)
Lemma no_timestamp_lost_run :
  let c := run_schedule Stub.both_read_then_write
             (Stub.two_requests, initial_state) in
  List.length (request_timestamps (snd c))
    = (List.length (request_timestamps initial_state)
       + started_count (fst c))%nat /\
  List.length (fst c) = List.length Stub.two_requests.
Proof.
  apply (@no_timestamp_lost Stub.externals Stub.both_read_then_write
           Stub.two_requests initial_state).
  reflexivity.
Defined.
